(** * wavelet-bench: the benchmark pipeline of [scripts/bench.py],
      [scripts/stats.py] and [scripts/encode.py]

    The Python code is embedded shallowly.

    - Python [int] is [Z]; Python [str] is [string], read as text whose
      code points are below 256.
    - Python [float] is read as an exact real number ([R]): rounding,
      overflow and underflow of binary64 are not part of this model.  The
      exceptions Python raises on the arithmetic used here are kept:
      [ZeroDivisionError] on a zero divisor and [ValueError] from
      [math.log10] on a non-positive argument.
    - A field that may hold either an [int] or a [float] is a [pynum].
    - Everything outside the interpreter (file sizes, child processes, the
      clock, file removal) is reached through a [Host] of primitives acting
      on an abstract world; the CSV reports live in an explicit store.
    - [print] is not modelled. *)

From Stdlib Require Import ZArith List String Ascii Bool Lia Reals Lra DecimalString.
From stdpp Require Import gmap.
Import ListNotations.

Open Scope Z_scope.
Open Scope string_scope.

(* ------------------------------------------------------------------ *)
(** ** Python values, exceptions and built-ins *)

Module Py.

Inductive exn : Type :=
| RuntimeError (msg : string)
| IndexError
| KeyError
| ValueError
| ZeroDivisionError
| AttributeError
| OSError (msg : string).

Inductive res (A : Type) : Type :=
| Ok (a : A)
| Raise (e : exn).
Arguments Ok {A} a.
Arguments Raise {A} e.

Definition rbind {A B : Type} (r : res A) (k : A -> res B) : res B :=
  match r with
  | Ok a => k a
  | Raise e => Raise e
  end.

(** Code that touches the world: a state [S] is threaded and an
    exception stops the computation where it is raised. *)
Definition M (S A : Type) : Type := S -> res A * S.

Definition ret {S A : Type} (a : A) : M S A := fun s => (Ok a, s).

Definition raise {S A : Type} (e : exn) : M S A := fun s => (Raise e, s).

Definition bind {S A B : Type} (m : M S A) (k : A -> M S B) : M S B :=
  fun s =>
    match m s with
    | (Ok a, s') => k a s'
    | (Raise e, s') => (Raise e, s')
    end.

Definition lift {S A : Type} (r : res A) : M S A := fun s => (r, s).

Declare Scope py_scope.
Delimit Scope py_scope with py.
Notation "'do' x <- m ; k" := (bind m (fun x => k))
  (at level 10, x name, m at level 100, k at level 200) : py_scope.
Notation "'do' ( x , y ) <- m ; k" := (bind m (fun '(x, y) => k))
  (at level 10, x name, y name, m at level 100, k at level 200) : py_scope.

(** The same notation for code that only raises. *)
Declare Scope res_scope.
Delimit Scope res_scope with res.
Notation "'do' x <- m ; k" := (rbind m (fun x => k))
  (at level 10, x name, m at level 100, k at level 200) : res_scope.

(** [for x in xs: acc = body(acc, x)] *)
Fixpoint for_each {S A B : Type} (xs : list A) (acc : B)
         (body : B -> A -> M S B) : M S B :=
  match xs with
  | [] => ret acc
  | x :: xs' => bind (body acc x) (fun acc' => for_each xs' acc' body)
  end.

(** [[f(x) for x in xs]] where [f] may raise *)
Fixpoint map_res {A B : Type} (f : A -> res B) (xs : list A) : res (list B) :=
  match xs with
  | [] => Ok []
  | x :: xs' =>
      (do y <- f x; do ys <- map_res f xs'; Ok (y :: ys))%res
  end.

(** A number as Python holds it: the tag decides how it prints and which
    arithmetic applies, the value is what [==] compares. *)
Inductive pynum : Type :=
| PyInt (z : Z)
| PyFloat (x : R).

Definition num_val (n : pynum) : R :=
  match n with
  | PyInt z => IZR z
  | PyFloat x => x
  end.

(** [a + b]: stays an [int] only when both operands are. *)
Definition py_add (a b : pynum) : pynum :=
  match a, b with
  | PyInt x, PyInt y => PyInt (x + y)
  | _, _ => PyFloat (num_val a + num_val b)
  end.

(** [sum(xs)]: a left fold that starts from the [int] 0. *)
Definition py_sum (xs : list pynum) : pynum :=
  fold_left py_add xs (PyInt 0).

(** Float division [a / b]. *)
Definition fdiv (a b : R) : res R :=
  if Req_dec_T b 0 then Raise ZeroDivisionError else Ok (a / b)%R.

(** True division [a / b] on numbers: always a [float]. *)
Definition py_truediv (a b : pynum) : res R :=
  fdiv (num_val a) (num_val b).

(** [int(x)] on a float: truncation towards zero. *)
Definition trunc (x : R) : Z :=
  if Rle_dec 0 x then Int_part x else - Int_part (- x).

(** [10 ** y] for a float exponent. *)
Definition pow10 (y : R) : R := Rpower 10 y.

(** [math.log10]. *)
Definition math_log10 (x : R) : res R :=
  if Rlt_dec 0 x then Ok (ln x / ln 10)%R else Raise ValueError.

(** *** Characters and strings *)

Definition is_digit (c : ascii) : bool :=
  let n := nat_of_ascii c in (48 <=? n)%nat && (n <=? 57)%nat.

(** [str.isspace] on one character below 256: this is also what [\s]
    matches in a [str] pattern and what [str.strip] and [int] skip. *)
Definition is_space (c : ascii) : bool :=
  let n := nat_of_ascii c in
  ((9 <=? n)%nat && (n <=? 13)%nat)
  || ((28 <=? n)%nat && (n <=? 32)%nat)
  || (n =? 133)%nat || (n =? 160)%nat.

Definition digit_val (c : ascii) : Z := Z.of_nat (nat_of_ascii c) - 48.

Fixpoint lstrip (s : string) : string :=
  match s with
  | String c s' => if is_space c then lstrip s' else s
  | EmptyString => EmptyString
  end.

(** Drops trailing white space: a character is kept when it is not white
    space or when something is kept after it. *)
Fixpoint rstrip (s : string) : string :=
  match s with
  | String c s' =>
      match rstrip s' with
      | EmptyString => if is_space c then EmptyString else String c EmptyString
      | t => String c t
      end
  | EmptyString => EmptyString
  end.

(** [s.strip()] *)
Definition strip (s : string) : string := rstrip (lstrip s).

(** [s.split(sep)] for a one-character separator: every occurrence
    splits, so the result has one more piece than there are separators. *)
Fixpoint split_on (sep : ascii) (s : string) : list string :=
  match s with
  | EmptyString => [EmptyString]
  | String c s' =>
      if Ascii.eqb c sep then EmptyString :: split_on sep s'
      else match split_on sep s' with
           | p :: ps => String c p :: ps
           | [] => [String c EmptyString]
           end
  end.

(** [s.split()]: pieces between runs of white space, none of them empty.
    [cur] is the piece being read. *)
Fixpoint split_ws_from (cur : string) (s : string) : list string :=
  match s with
  | EmptyString => if String.eqb cur "" then [] else [cur]
  | String c s' =>
      if is_space c
      then (if String.eqb cur "" then split_ws_from "" s'
            else cur :: split_ws_from "" s')
      else split_ws_from (cur ++ String c "") s'
  end.

Definition split_ws (s : string) : list string := split_ws_from "" s.

(** Digits with single underscores between them, as [int] accepts them;
    [seen] says that the previous character was a digit.  Returns the
    value and the number of digits. *)
Fixpoint digits_from (acc : Z) (n : nat) (seen : bool) (s : string)
  : option (Z * nat) :=
  match s with
  | EmptyString => if seen then Some (acc, n) else None
  | String c s' =>
      if is_digit c then digits_from (10 * acc + digit_val c) (S n) true s'
      else if Ascii.eqb c "_" then
             (if seen then digits_from acc n false s' else None)
      else None
  end.

(** [sys.int_info.default_max_str_digits] *)
Definition max_str_digits : nat := 4300.

Definition int_unsigned (s : string) : option Z :=
  match digits_from 0 0 false s with
  | Some (v, n) => if (n <=? max_str_digits)%nat then Some v else None
  | None => None
  end.

(** [int(s)] in base 10: white space around, an optional sign, digits. *)
Definition py_int (s : string) : res Z :=
  let t := strip s in
  let r := match t with
           | String "+" u => int_unsigned u
           | String "-" u => option_map Z.opp (int_unsigned u)
           | _ => int_unsigned t
           end in
  match r with
  | Some z => Ok z
  | None => Raise ValueError
  end.

(** [str(n)] and [f"{n}"] for an [int]. *)
Definition py_str (n : Z) : string :=
  DecimalString.NilZero.string_of_int (Z.to_int n).

Fixpoint all_digits (s : string) : bool :=
  match s with
  | EmptyString => true
  | String c s' => is_digit c && all_digits s'
  end.

Fixpoint digits_val (acc : Z) (s : string) : Z :=
  match s with
  | EmptyString => acc
  | String c s' => digits_val (10 * acc + digit_val c) s'
  end.

(** The two digit runs of a literal of the shape digits, point, digits. *)
Definition decimal_parts (s : string) : option (string * string) :=
  match split_on "." s with
  | [a; b] =>
      if negb (String.eqb a "") && negb (String.eqb b "")
         && all_digits a && all_digits b
      then Some (a, b) else None
  | _ => None
  end.

(** [float(s)], on the literals the metric patterns capture: digits, a
    point, digits.  Other spellings Python accepts (exponents, signs,
    [inf]) never reach it here and are rejected by this model. *)
Definition py_float (s : string) : res R :=
  match decimal_parts s with
  | Some (a, b) =>
      Ok (IZR (digits_val 0 a)
          + IZR (digits_val 0 b) / IZR (10 ^ Z.of_nat (String.length b)))%R
  | None => Raise ValueError
  end.

(** *** [posixpath] *)

(** [os.path.basename]: what follows the last slash. *)
Fixpoint basename_from (cur : string) (p : string) : string :=
  match p with
  | EmptyString => cur
  | String c p' =>
      if Ascii.eqb c "/" then basename_from "" p'
      else basename_from (cur ++ String c "") p'
  end.

Definition basename (p : string) : string := basename_from "" p.

(** Splits a file name (no slash in it) at its last dot, unless that dot
    is one of the leading dots.  [lead] says that only dots were read so
    far.  Returns root and extension. *)
Fixpoint splitext_name (lead : bool) (s : string) : string * string :=
  match s with
  | EmptyString => (EmptyString, EmptyString)
  | String c s' =>
      let isdot := Ascii.eqb c "." in
      let '(r, e) := splitext_name (lead && isdot) s' in
      match e with
      | EmptyString =>
          if isdot && negb lead then (EmptyString, s)
          else (String c r, EmptyString)
      | _ => (String c r, e)
      end
  end.

(** Directory part of a path, with its last slash. *)
Fixpoint dirname_from (seen cur : string) (p : string) : string :=
  match p with
  | EmptyString => seen
  | String c p' =>
      if Ascii.eqb c "/" then dirname_from (seen ++ cur ++ "/") "" p'
      else dirname_from seen (cur ++ String c "") p'
  end.

(** [os.path.splitext] *)
Definition splitext (p : string) : string * string :=
  let '(r, e) := splitext_name true (basename p) in
  (dirname_from "" "" p ++ r, e).

(** [s.endswith(suffix)] *)
Definition endswith (s suffix : string) : bool :=
  let n := String.length s in
  let k := String.length suffix in
  (k <=? n)%nat && String.eqb (String.substring (n - k) k s) suffix.

(** *** The fragment of [re] the metric patterns use

    A pattern is a sequence of tokens: a literal character, [\d*]/[\s*],
    [\d+]/[\s+], and the two ends of a capturing group.  Repetition is
    greedy and backtracks. *)

Inductive cls : Type := Digit | Space.

Definition in_cls (k : cls) (c : ascii) : bool :=
  match k with
  | Digit => is_digit c
  | Space => is_space c
  end.

Fixpoint all_in (k : cls) (s : string) : bool :=
  match s with
  | EmptyString => true
  | String c s' => in_cls k c && all_in k s'
  end.

Inductive tok : Type :=
| TChar (c : ascii)
| TStar (k : cls)
| TPlus (k : cls)
| TOpen
| TClose.

(** Greedy repetition of a class: takes one more character when it can,
    and hands over to [cont] when the longer attempt fails.  [acc] is the
    text read since the last group opened. *)
Fixpoint rep {A : Type} (k : cls) (cont : string -> string -> option A)
         (s acc : string) : option A :=
  match s with
  | String a s' =>
      if in_cls k a then
        match rep k cont s' (acc ++ String a "") with
        | Some r => Some r
        | None => cont s acc
        end
      else cont s acc
  | EmptyString => cont s acc
  end.

(** Matches the pattern at the start of [s]; returns the groups. *)
Fixpoint run (p : list tok) (s acc : string) (caps : list string)
  : option (list string) :=
  match p with
  | [] => Some (rev caps)
  | TChar c :: p' =>
      match s with
      | String a s' =>
          if Ascii.eqb a c then run p' s' (acc ++ String a "") caps else None
      | EmptyString => None
      end
  | TStar k :: p' => rep k (fun s' acc' => run p' s' acc' caps) s acc
  | TPlus k :: p' =>
      match s with
      | String a s' =>
          if in_cls k a
          then rep k (fun s' acc' => run p' s' acc' caps) s' (acc ++ String a "")
          else None
      | EmptyString => None
      end
  | TOpen :: p' => run p' s "" caps
  | TClose :: p' => run p' s acc (acc :: caps)
  end.

(** [re.search]: the leftmost position where the pattern matches. *)
Fixpoint re_search (p : list tok) (s : string) : option (list string) :=
  match run p s "" [] with
  | Some g => Some g
  | None =>
      match s with
      | String _ s' => re_search p s'
      | EmptyString => None
      end
  end.

(** [l[i]] for [i >= 0] *)
Definition index {A : Type} (l : list A) (i : nat) : res A :=
  match nth_error l i with
  | Some x => Ok x
  | None => Raise IndexError
  end.

(** [match.group(i)], [i >= 1] *)
Definition group (g : list string) (i : nat) : res string :=
  index g (i - 1).

Fixpoint lit (s : string) : list tok :=
  match s with
  | EmptyString => []
  | String c s' => TChar c :: lit s'
  end.

(** [(\d+\.\d+)] *)
Definition decimal_group : list tok :=
  [TOpen; TPlus Digit; TChar "."; TPlus Digit; TClose].

End Py.

(* ------------------------------------------------------------------ *)
(** ** scripts/bench.py *)

Import Py.
Open Scope py_scope.

(** What [subprocess.run(..., capture_output=True, text=True)] returns. *)
Record CompletedProcess : Type := {
  returncode : Z;
  stdout : string;
  stderr : string
}.

(** The operating system as the scripts use it.  A started child process is
    known by a handle; [host_popen] may be given the handle whose standard
    output feeds the new process. *)
Class Host (W : Type) : Type := {
  os_path_getsize : string -> M W Z;
  os_path_exists : string -> M W bool;
  os_remove : string -> M W unit;
  subprocess_run : list string -> M W CompletedProcess;
  host_popen : list string -> option nat -> M W nat;
  host_communicate : nat -> M W (string * string);
  time_time : M W R
}.

Section WithHost.
Context {W : Type} `{Host W}.

(** [subprocess.Popen(cmd, ...)]: the program is [cmd[0]], so an empty
    command raises before anything is started. *)
Definition Popen (cmd : list string) (stdin : option nat) : M W nat :=
  match cmd with
  | [] => raise IndexError
  | _ => host_popen cmd stdin
  end.
End WithHost.

(** [psnr_to_mse(p, m)]: [(m**2) / (10 ** (p / 10))] *)
Definition psnr_to_mse (p : R) (m : Z) : res R :=
  fdiv (IZR (m ^ 2)) (pow10 (p / 10)).

(** Line 170 of [calculate_xpsnr]: [10.0 * math.log10((maxval**2) / mse)],
    the way back from a mean squared error to decibels. *)
Definition mse_to_db (maxval : Z) (mse : R) : res R :=
  (do r <- fdiv (IZR (maxval ^ 2)) mse;
   do l <- math_log10 r;
   Ok (10 * l)%R)%res.

(** Lines 165-170 of [calculate_xpsnr], from the three plane scores. *)
Definition weighted_xpsnr (xpsnr_y xpsnr_u xpsnr_v : R) : res R :=
  let maxval := 255 in
  (do xpsnr_mse_y <- psnr_to_mse xpsnr_y maxval;
   do xpsnr_mse_u <- psnr_to_mse xpsnr_u maxval;
   do xpsnr_mse_v <- psnr_to_mse xpsnr_v maxval;
   let w_xpsnr_mse := (((4 * xpsnr_mse_y) + xpsnr_mse_u + xpsnr_mse_v) / 6)%R in
   mse_to_db maxval w_xpsnr_mse)%res.

Module CoreVideo.

Record t : Type := {
  path : string;
  name : string;
  size : Z;
  video_width : Z;
  video_height : Z
}.

Section WithHost.
Context {W : Type} `{Host W}.

Definition get_input_filesize (self_path : string) : M W Z :=
  os_path_getsize self_path.

Definition ffprobe_cmd (self_path : string) : list string :=
  ["ffprobe"; "-v"; "error"; "-select_streams"; "v:0"; "-show_entries";
   "stream=width,height"; "-of"; "csv=s=x:p=0"; self_path].

(** What lines 51-55 make of the finished prober. *)
Definition dimensions_of (result : CompletedProcess) : res (Z * Z) :=
  if negb (Z.eqb (returncode result) 0)
  then Raise (RuntimeError ("Error getting video dimensions: " ++ stderr result))
  else
    let dimensions := split_on "x" (strip (stdout result)) in
    (do d0 <- index dimensions 0;
     do w <- py_int d0;
     do d1 <- index dimensions 1;
     do h <- py_int d1;
     Ok (w, h))%res.

(** [get_video_dimensions(self)]; it reads [self.path] only. *)
Definition get_video_dimensions (self_path : string) : M W (Z * Z) :=
  do result <- subprocess_run (ffprobe_cmd self_path);
  lift (dimensions_of result).

(** [CoreVideo(pth)] *)
Definition init (pth : string) : M W t :=
  do sz <- get_input_filesize pth;
  do (w, h) <- get_video_dimensions pth;
  ret {| path := pth; name := basename pth; size := sz;
         video_width := w; video_height := h |}.
End WithHost.

End CoreVideo.

Module DstVideo.

(** A [DstVideo] is a [CoreVideo] with the encoded path and the scores;
    [psnr] and [ssim] hold whatever was last assigned to them, an [int]
    or a [float]. *)
Record t : Type := {
  path : string;
  enc_path : string;
  name : string;
  size : Z;
  video_width : Z;
  video_height : Z;
  xpsnr_y : R;
  xpsnr_u : R;
  xpsnr_v : R;
  w_xpsnr : R;
  psnr : pynum;
  ssim : pynum
}.

Definition set_psnr_ssim (self : t) (p s : pynum) : t :=
  {| path := path self; enc_path := enc_path self; name := name self;
     size := size self; video_width := video_width self;
     video_height := video_height self;
     xpsnr_y := xpsnr_y self; xpsnr_u := xpsnr_u self;
     xpsnr_v := xpsnr_v self; w_xpsnr := w_xpsnr self;
     psnr := p; ssim := s |}.

Definition set_xpsnr (self : t) (y u v w : R) : t :=
  {| path := path self; enc_path := enc_path self; name := name self;
     size := size self; video_width := video_width self;
     video_height := video_height self;
     xpsnr_y := y; xpsnr_u := u; xpsnr_v := v; w_xpsnr := w;
     psnr := psnr self; ssim := ssim self |}.

(** [r"average:(\d+\.\d+)"] *)
Definition psnr_rgx : list tok := lit "average:" ++ decimal_group.

(** [r"All:(\d+\.\d+)"] *)
Definition ssim_rgx : list tok := lit "All:" ++ decimal_group.

(** [r"XPSNR\s+y:\s*(\d+\.\d+)\s+u:\s*(\d+\.\d+)\s+v:\s*(\d+\.\d+)"] *)
Definition xpsnr_rgx : list tok :=
  lit "XPSNR" ++ [TPlus Space] ++ lit "y:" ++ [TStar Space] ++ decimal_group
  ++ [TPlus Space] ++ lit "u:" ++ [TStar Space] ++ decimal_group
  ++ [TPlus Space] ++ lit "v:" ++ [TStar Space] ++ decimal_group.

Definition psnr_ssim_cmd (src_path self_path : string) : list string :=
  ["ffmpeg"; "-i"; src_path; "-i"; self_path; "-filter_complex";
   "[0:v][1:v]psnr=shortest=1;[0:v][1:v]ssim=shortest=1"; "-f"; "null"; "-"].

Definition xpsnr_cmd (src_path self_path : string) : list string :=
  ["ffmpeg"; "-i"; self_path; "-i"; src_path; "-hide_banner"; "-lavfi";
   "xpsnr=shortest=1"; "-f"; "null"; "-"].

(** [float(m.group(1)) if m else 0] *)
Definition score_or_zero (m : option (list string)) : res pynum :=
  match m with
  | Some g => (do x <- group g 1; do f <- py_float x; Ok (PyFloat f))%res
  | None => Ok (PyInt 0)
  end.

(** Lines 156-163: the three plane scores, or three times [0.0]. *)
Definition planes_or_zero (m : option (list string)) : res (R * R * R) :=
  match m with
  | Some g =>
      (do gy <- group g 1; do y <- py_float gy;
       do gu <- group g 2; do u <- py_float gu;
       do gv <- group g 3; do v <- py_float gv;
       Ok (y, u, v))%res
  | None => Ok (0, 0, 0)%R
  end.

Section WithHost.
Context {W : Type} `{Host W}.

(** The override: the size is that of the encoded file. *)
Definition get_input_filesize (self_enc_path : string) : M W Z :=
  os_path_getsize self_enc_path.

(** [DstVideo(pth, e_pth)] *)
Definition init (pth e_pth : string) : M W t :=
  do sz <- get_input_filesize e_pth;
  do (w, h) <- CoreVideo.get_video_dimensions pth;
  ret {| path := pth; enc_path := e_pth; name := basename pth;
         size := sz; video_width := w; video_height := h;
         xpsnr_y := 0; xpsnr_u := 0; xpsnr_v := 0; w_xpsnr := 0;
         psnr := PyFloat 0; ssim := PyFloat 0 |}.

(** [calculate_psnr_ssim(self, src)]; returns [self] as it is left. *)
Definition calculate_psnr_ssim (self : t) (src : CoreVideo.t) : M W t :=
  do process <- Popen (psnr_ssim_cmd (CoreVideo.path src) (path self)) None;
  do (_out, err) <- host_communicate process;
  do p <- lift (score_or_zero (re_search psnr_rgx err));
  do s <- lift (score_or_zero (re_search ssim_rgx err));
  ret (set_psnr_ssim self p s).

(** [calculate_xpsnr(self, src)]; returns [self] as it is left. *)
Definition calculate_xpsnr (self : t) (src : CoreVideo.t) : M W t :=
  do process <- Popen (xpsnr_cmd (CoreVideo.path src) (path self)) None;
  do (_out, err) <- host_communicate process;
  do yuv <- lift (planes_or_zero (re_search xpsnr_rgx err));
  let '(y, u, v) := yuv in
  do w <- lift (weighted_xpsnr y u v);
  ret (set_xpsnr self y u v w).
End WithHost.

End DstVideo.

Module VideoEnc.

(** [time] is absent until [encode] has run. *)
Record t : Type := {
  src : CoreVideo.t;
  dst_pth : string;
  q : Z;
  encoder : string;
  encoder_args : list string;
  time : option R
}.

(** [get_ext(self)]; it reads [self.encoder] only. *)
Definition get_ext (self_encoder : string) : string :=
  if String.eqb self_encoder "dirac" then "mkv"
  else if String.eqb self_encoder "snow" then "avi"
  else if String.eqb self_encoder "x264" then "264"
  else "dsv".

(** [not dst_pth]: true of [None] and of the empty string. *)
Definition not_given (dst_pth : option string) : bool :=
  match dst_pth with
  | None => true
  | Some p => String.eqb p ""
  end.

(** [VideoEnc(src, q, encoder, encoder_args, dst_pth)] *)
Definition init (src0 : CoreVideo.t) (q0 : Z) (encoder0 : string)
           (encoder_args0 : list string) (dst_pth0 : option string) : t :=
  let args := match encoder_args0 with [] => [""] | _ => encoder_args0 end in
  let dst :=
    if not_given dst_pth0 then
      let base_name := fst (splitext (CoreVideo.name src0)) in
      let ext := get_ext encoder0 in
      base_name ++ "_" ++ encoder0 ++ "_q" ++ py_str q0 ++ "." ++ ext
    else match dst_pth0 with Some p => p | None => "" end in
  {| src := src0; dst_pth := dst; q := q0; encoder := encoder0;
     encoder_args := args; time := None |}.

Definition set_time (self : t) (x : R) : t :=
  {| src := src self; dst_pth := dst_pth self; q := q self;
     encoder := encoder self; encoder_args := encoder_args self;
     time := Some x |}.

Definition args_given (self : t) : bool :=
  if List.list_eq_dec string_dec (encoder_args self) [""] then false else true.

(** [f"{os.path.splitext(self.dst_pth)[0]}_decoded.y4m"] *)
Definition dec_y4m_path (self : t) : string :=
  fst (splitext (dst_pth self)) ++ "_decoded.y4m".

(** Lines 241-308: the supply command, the encoder command and the path
    to compare, as they stand before anything is started. *)
Definition commands (self : t) : list string * list string * string :=
  let '(enc_cmd, dec_pth) :=
    if String.eqb (encoder self) "x264" then
      let enc_cmd := ["x264"; "--demuxer"; "y4m"; "--crf"; py_str (q self);
                      "-o"; dst_pth self; "-"] in
      (if args_given self then (enc_cmd ++ encoder_args self)%list else enc_cmd,
       dst_pth self)
    else if String.eqb (encoder self) "dsv2" then
      let enc_cmd := ["dsv2"; "e"; "-inp=-"; "-out=" ++ dst_pth self;
                      "-qp=" ++ py_str (q self); "-y"] in
      (if args_given self then (enc_cmd ++ encoder_args self)%list else enc_cmd,
       dec_y4m_path self)
    else ([], "") in
  let ff_cmd :=
    if negb (String.eqb (encoder self) "snow") then
      ["ffmpeg"; "-hide_banner"; "-y"; "-loglevel"; "error"; "-i";
       CoreVideo.path (src self); "-pix_fmt"; "yuv420p"; "-strict"; "-2";
       "-f"; "yuv4mpegpipe"; "-"]
    else
      let ff_cmd := ["ffmpeg"; "-y"; "-hide_banner"; "-loglevel"; "error";
                     "-i"; CoreVideo.path (src self); "-pix_fmt"; "yuv420p";
                     "-c:v"; "snow"; "-q:v"; py_str (q self); dst_pth self] in
      if args_given self then (ff_cmd ++ encoder_args self)%list else ff_cmd in
  (ff_cmd, enc_cmd, dec_pth).

Definition dec_cmd (self : t) : list string :=
  ["dsv2"; "d"; "-inp=" ++ dst_pth self; "-out=" ++ dec_y4m_path self;
   "-y4m=1"; "-y"].

Section WithHost.
Context {W : Type} `{Host W}.

(** [encode(self)]: returns [self] with its [time] set, and the
    [DstVideo]. *)
Definition encode (self : t) : M W (t * DstVideo.t) :=
  let '(ff_cmd, enc_cmd, dec_pth) := commands self in
  do r <-
    (if String.eqb (encoder self) "dsv2" then
       do ff_proc <- Popen ff_cmd None;
       do start_time <- time_time;
       do enc_proc <- Popen enc_cmd (Some ff_proc);
       do _enc <- host_communicate enc_proc;
       do dec_proc <- Popen (dec_cmd self) None;
       do _dec <- host_communicate dec_proc;
       do end_time <- time_time;
       ret (set_time self (end_time - start_time), dec_y4m_path self)
     else if negb (String.eqb (encoder self) "snow") then
       do ff_proc <- Popen ff_cmd None;
       do start_time <- time_time;
       do enc_proc <- Popen enc_cmd (Some ff_proc);
       do _enc <- host_communicate enc_proc;
       do end_time <- time_time;
       ret (set_time self (end_time - start_time), dec_pth)
     else
       do start_time <- time_time;
       do process <- Popen ff_cmd None;
       do _enc <- host_communicate process;
       do end_time <- time_time;
       ret (set_time self (end_time - start_time), dst_pth self));
  let '(self', dec_pth') := r in
  do v <- DstVideo.init dec_pth' (dst_pth self');
  ret (self', v).

(** [remove_output(self)] *)
Definition remove_output (self : t) : M W unit :=
  do _r <- os_remove (dst_pth self);
  if String.eqb (encoder self) "dsv2" then
    do present <- os_path_exists (dec_y4m_path self);
    if present then os_remove (dec_y4m_path self) else ret tt
  else ret tt.
End WithHost.

End VideoEnc.

(* ------------------------------------------------------------------ *)
(** ** scripts/stats.py *)

Module Stats.

(** A row of a report, under the header
    [q,encode_time,output_filesize,psnr,ssim,wxpsnr].  The floats are kept
    as numbers: the five-decimal rendering of [write_stats] is not
    modelled. *)
Record row : Type := {
  row_q : Z;
  row_encode_time : R;
  row_output_filesize : Z;
  row_psnr : R;
  row_ssim : R;
  row_wxpsnr : R
}.

Inductive csv_line : Type :=
| Header
| Line (r : row).

(** The report files: their lines, or [None] for a file that does not
    exist. *)
Definition store : Type := string -> option (list csv_line).

Definition store_set (fs : store) (f : string) (ls : list csv_line) : store :=
  fun g => if String.eqb g f then Some ls else fs g.

Record state (W : Type) : Type := {
  host : W;
  files : store
}.
Arguments host {W} _.
Arguments files {W} _.

(** Runs a step of [bench.py] on the host part of the state. *)
Definition on_host {W A : Type} (m : M W A) : M (state W) A :=
  fun st =>
    let '(r, w') := m (host st) in
    (r, {| host := w'; files := files st |}).

Definition csv_name (name : string) : string :=
  if endswith name ".csv" then name else name ++ ".csv".

(** [write_stats(name, q, encode_time, size, psnr, ssim, w_xpsnr)] *)
Definition write_stats {W : Type} (name : string) (q : Z) (encode_time : R)
           (size : Z) (psnr ssim w_xpsnr : R) : M (state W) unit :=
  fun st =>
    let csv := csv_name name in
    let r := {| row_q := q; row_encode_time := encode_time;
                row_output_filesize := size; row_psnr := psnr;
                row_ssim := ssim; row_wxpsnr := w_xpsnr |} in
    let ls := match files st csv with
              | None => [Header; Line r]
              | Some old => (old ++ [Line r])%list
              end in
    (Ok tt, {| host := host st; files := store_set (files st) csv ls |}).

Record Namespace : Type := {
  inputs : list string;
  quality : string;
  encoder : string;
  output : string;
  keep : bool;
  encoder_args : list string
}.

(** One [dict] per video, for each of the five measures. *)
Record tables : Type := {
  cumulative_sizes : list (gmap Z pynum);
  cumulative_times : list (gmap Z pynum);
  cumulative_psnr : list (gmap Z pynum);
  cumulative_ssim : list (gmap Z pynum);
  cumulative_wxpsnr : list (gmap Z pynum)
}.

(** [{q: v for q in quality_list}] *)
Definition dict_of (quality_list : list Z) (v : pynum) : gmap Z pynum :=
  fold_left (fun d q => <[q := v]> d) quality_list ∅.

(** Lines 93-107. *)
Definition initial_tables (n : nat) (quality_list : list Z) : tables :=
  {| cumulative_sizes := replicate n (dict_of quality_list (PyInt 0));
     cumulative_times := replicate n (dict_of quality_list (PyFloat 0));
     cumulative_psnr := replicate n (dict_of quality_list (PyFloat 0));
     cumulative_ssim := replicate n (dict_of quality_list (PyFloat 0));
     cumulative_wxpsnr := replicate n (dict_of quality_list (PyFloat 0)) |}.

(** [tbl[i][q] = v] *)
Definition set_cell (tbl : list (gmap Z pynum)) (i : nat) (q : Z) (v : pynum)
  : res (list (gmap Z pynum)) :=
  match tbl !! i with
  | Some d => Ok (<[i := <[q := v]> d]> tbl)
  | None => Raise IndexError
  end.

(** [tbl[j][q]] *)
Definition get_cell (tbl : list (gmap Z pynum)) (q : Z) (j : nat) : res pynum :=
  match tbl !! j with
  | Some d =>
      match d !! q with
      | Some v => Ok v
      | None => Raise KeyError
      end
  | None => Raise IndexError
  end.

(** Lines 125-129. *)
Definition record_cell (cum : tables) (i : nat) (q : Z)
           (e_time : R) (v : DstVideo.t) : res tables :=
  (do times <- set_cell (cumulative_times cum) i q (PyFloat e_time);
   do sizes <- set_cell (cumulative_sizes cum) i q (PyInt (DstVideo.size v));
   do psnrs <- set_cell (cumulative_psnr cum) i q (DstVideo.psnr v);
   do ssims <- set_cell (cumulative_ssim cum) i q (DstVideo.ssim v);
   do wxs <- set_cell (cumulative_wxpsnr cum) i q (PyFloat (DstVideo.w_xpsnr v));
   Ok {| cumulative_sizes := sizes; cumulative_times := times;
         cumulative_psnr := psnrs; cumulative_ssim := ssims;
         cumulative_wxpsnr := wxs |})%res.

(** [sum(tbl[j][q] for j in range(i)) / i] *)
Definition average (tbl : list (gmap Z pynum)) (q : Z) (i : nat) : res R :=
  (do xs <- map_res (get_cell tbl q) (seq 0 i);
   py_truediv (py_sum xs) (PyInt (Z.of_nat i)))%res.

(** Lines 142-146: the averages of quality [q]. *)
Definition summary_row (cum : tables) (i : nat) (q : Z) : res row :=
  (do avg_time <- average (cumulative_times cum) q i;
   do mean_size <- average (cumulative_sizes cum) q i;
   let avg_size := trunc mean_size in
   do avg_psnr <- average (cumulative_psnr cum) q i;
   do avg_ssim <- average (cumulative_ssim cum) q i;
   do avg_wxpsnr <- average (cumulative_wxpsnr cum) q i;
   Ok {| row_q := q; row_encode_time := avg_time;
         row_output_filesize := avg_size; row_psnr := avg_psnr;
         row_ssim := avg_ssim; row_wxpsnr := avg_wxpsnr |})%res.

(** Lines 135-155: one row computed and written per entry of the
    quality list. *)
Definition summarise {W : Type} (csv_out : string) (quality_list : list Z)
           (cum : tables) (i : nat) : M (state W) unit :=
  for_each quality_list tt (fun _ q =>
    do r <- lift (summary_row cum i q);
    write_stats csv_out (row_q r) (row_encode_time r) (row_output_filesize r)
                (row_psnr r) (row_ssim r) (row_wxpsnr r)).

(** A table has one [dict] per video, each with every quality as a key:
    what lines 93-107 set up and the assignments of lines 125-129 keep. *)
Definition filled (quality_list : list Z) (n : nat)
           (tbl : list (gmap Z pynum)) : Prop :=
  length tbl = n
  /\ Forall (fun d => Forall (fun q => is_Some (d !! q)) quality_list) tbl.

Definition tables_filled (quality_list : list Z) (n : nat) (cum : tables)
  : Prop :=
  filled quality_list n (cumulative_sizes cum)
  /\ filled quality_list n (cumulative_times cum)
  /\ filled quality_list n (cumulative_psnr cum)
  /\ filled quality_list n (cumulative_ssim cum)
  /\ filled quality_list n (cumulative_wxpsnr cum).

Section WithHost.
Context {W : Type} `{Host W}.

(** The body of the loop over the qualities, lines 116-132. *)
Definition run_cell (enc : string) (enc_args : list string) (clean : bool)
           (s : CoreVideo.t) (i : nat) (cum : tables) (q : Z)
  : M (state W) tables :=
  let e := VideoEnc.init s q enc enc_args None in
  do (e', v) <- on_host (VideoEnc.encode e);
  do e_time <- lift (match VideoEnc.time e' with
                     | Some x => Ok x
                     | None => Raise AttributeError
                     end);
  do v1 <- on_host (DstVideo.calculate_psnr_ssim v s);
  do v2 <- on_host (DstVideo.calculate_xpsnr v1 s);
  do cum' <- lift (record_cell cum i q e_time v2);
  if clean
  then do _r <- on_host (VideoEnc.remove_output e'); ret cum'
  else ret cum'.

(** Lines 110-133: every video at every quality. *)
Definition run_cells (enc : string) (enc_args : list string) (clean : bool)
           (src_pth : list string) (quality_list : list Z) (cum0 : tables)
  : M (state W) (tables * nat) :=
  for_each src_pth (cum0, 0%nat) (fun '(cum, i) src =>
    do s <- on_host (CoreVideo.init src);
    do cum' <- for_each quality_list cum (run_cell enc enc_args clean s i);
    ret (cum', S i)).

(** [main()], from the parsed arguments on. *)
Definition main (args : Namespace) : M (state W) unit :=
  let src_pth := inputs args in
  do quality_list <- lift (map_res py_int (split_ws (quality args)));
  let cum0 := initial_tables (length src_pth) quality_list in
  do (cum, i) <- run_cells (encoder args) (encoder_args args) (keep args)
                           src_pth quality_list cum0;
  summarise (output args) quality_list cum i.
End WithHost.

End Stats.

(* ------------------------------------------------------------------ *)
(** ** scripts/encode.py *)

Module Encode.

Record Namespace : Type := {
  input : string;
  quality : Z;
  encoder : string;
  out : option string;
  encoder_args : list string
}.

Section WithHost.
Context {W : Type} `{Host W}.

(** [main()], from the parsed arguments on; the scores it prints are
    returned. *)
Definition main (args : Namespace) : M W DstVideo.t :=
  do s <- CoreVideo.init (input args);
  let e := VideoEnc.init s (quality args) (encoder args)
                         (encoder_args args) (out args) in
  do (e', v) <- VideoEnc.encode e;
  do v1 <- DstVideo.calculate_psnr_ssim v s;
  do v2 <- DstVideo.calculate_xpsnr v1 s;
  if VideoEnc.not_given (out args)
  then do _r <- VideoEnc.remove_output e'; ret v2
  else ret v2.
End WithHost.

(** The encoders the command line accepts. *)
Definition choices : list string := ["snow"; "dsv2"; "dirac"; "x264"].

End Encode.

(* ------------------------------------------------------------------ *)
(** ** A scripted host

    A host whose answers are fixed in advance: every file has [file_size]
    bytes and exists, the prober answers [probe], every child process that
    is waited for writes [report] to its standard error, and the clock
    advances by one second per reading.  The world is the count of events
    so far. *)

Module Scripted.

Definition host (file_size : Z) (probe : CompletedProcess) (report : string)
  : Host nat :=
  {| os_path_getsize := fun _ w => (Ok file_size, w);
     os_path_exists := fun _ w => (Ok true, w);
     os_remove := fun _ w => (Ok tt, w);
     subprocess_run := fun _ w => (Ok probe, S w);
     host_popen := fun _ _ w => (Ok w, S w);
     host_communicate := fun _ w => (Ok ("", report), w);
     time_time := fun w => (Ok (INR w), S w) |}.

Definition probe_ok (out : string) : CompletedProcess :=
  {| returncode := 0; stdout := out; stderr := "" |}.

(** A source and an encode of it, as the constructors leave them. *)
Definition clip : CoreVideo.t :=
  {| CoreVideo.path := "clip.mp4"; CoreVideo.name := "clip.mp4";
     CoreVideo.size := 1000; CoreVideo.video_width := 1920;
     CoreVideo.video_height := 1080 |}.

Definition encoded : DstVideo.t :=
  {| DstVideo.path := "clip_x264_q23.264";
     DstVideo.enc_path := "clip_x264_q23.264";
     DstVideo.name := "clip_x264_q23.264";
     DstVideo.size := 1000; DstVideo.video_width := 1920;
     DstVideo.video_height := 1080;
     DstVideo.xpsnr_y := 0; DstVideo.xpsnr_u := 0; DstVideo.xpsnr_v := 0;
     DstVideo.w_xpsnr := 0;
     DstVideo.psnr := PyFloat 0; DstVideo.ssim := PyFloat 0 |}.

(** Reports in the layout of the metric filters. *)
Definition xpsnr_report : string :=
  "[Parsed_xpsnr_0 @ 0x5581] XPSNR  y: 40.0  u: 42.0  v: 42.0  (minimum: 40.0)".

Definition psnr_ssim_report : string :=
  "[Parsed_psnr_0 @ 0x5581] PSNR y:38.5 u:43.25 v:44.0 average:39.5 min:30.1 "
  ++ "[Parsed_ssim_1 @ 0x5582] SSIM Y:0.98 (17.1) U:0.99 (19.9) All:0.985 (18.2)".

(** A report of a run that measured nothing. *)
Definition empty_report : string := "Conversion failed!".



(** A world with no report in it yet. *)
Definition fresh : Stats.state nat :=
  {| Stats.host := 0%nat; Stats.files := fun _ => None |}.

(** [stats.py -i clip.mp4 other.y4m -q "40 20 30" x264 -o report] *)
Definition batch_args : Stats.Namespace :=
  {| Stats.inputs := ["clip.mp4"; "other.y4m"];
     Stats.quality := "40 20 30";
     Stats.encoder := "x264";
     Stats.output := "report";
     Stats.keep := true;
     Stats.encoder_args := [] |}.

End Scripted.

(* ------------------------------------------------------------------ *)
(** ** The documented formulas

    The weighted-XPSNR derivation as the design document words it, to be
    compared with [weighted_xpsnr]; and the round trip through
    [psnr_to_mse] it asks for. *)

Module Spec.

Definition peak : R := 255.

(** [mse = peak² / 10^(psnr/10)] *)
Definition mse (psnr : R) : R := (peak ^ 2 / Rpower 10 (psnr / 10))%R.

(** [weightedMse = (4·mseY + mseU + mseV) / 6] *)
Definition weightedMse (mseY mseU mseV : R) : R :=
  ((4 * mseY + mseU + mseV) / 6)%R.

(** [log10] as a function of the reals *)
Definition log10 (x : R) : R := (ln x / ln 10)%R.

(** [weightedXpsnr = 10·log10(peak² / weightedMse)] *)
Definition weightedXpsnr (wmse : R) : R := (10 * log10 (peak ^ 2 / wmse))%R.

Definition derive (y u v : R) : R :=
  weightedXpsnr (weightedMse (mse y) (mse u) (mse v)).

(** The mean of a list of numbers. *)
Definition mean (xs : list R) : R :=
  (fold_right Rplus 0 xs / INR (length xs))%R.

(** The values recorded for quality [q], one per video. *)
Definition column (tbl : list (gmap Z pynum)) (q : Z) : list R :=
  map (fun d => match d !! q with Some v => num_val v | None => 0%R end) tbl.

(** The summary row of quality [q]: the mean over the videos of each
    measure, the mean size cut to an integer. *)
Definition summary (cum : Stats.tables) (q : Z) : Stats.row :=
  {| Stats.row_q := q;
     Stats.row_encode_time := mean (column (Stats.cumulative_times cum) q);
     Stats.row_output_filesize :=
       trunc (mean (column (Stats.cumulative_sizes cum) q));
     Stats.row_psnr := mean (column (Stats.cumulative_psnr cum) q);
     Stats.row_ssim := mean (column (Stats.cumulative_ssim cum) q);
     Stats.row_wxpsnr := mean (column (Stats.cumulative_wxpsnr cum) q) |}.

(** A report after [rows] were added to it: a new file starts with the
    header, and nothing is created for no rows. *)
Definition appended (old : option (list Stats.csv_line))
           (rows : list Stats.row) : option (list Stats.csv_line) :=
  match rows with
  | [] => old
  | _ => Some ((match old with Some ls => ls | None => [Stats.Header] end)
               ++ map Stats.Line rows)%list
  end.

End Spec.


(** [c not in s] *)
Fixpoint lacks (c : ascii) (s : string) : bool :=
  match s with
  | EmptyString => true
  | String a s' => negb (Ascii.eqb a c) && lacks c s'
  end.

(* ------------------------------------------------------------------ *)
(** ** A host that is only a file system

    The world is the list of the files that exist.  Removing a file that
    is not there, or asking for its size, fails as [os.remove] and
    [os.path.getsize] do; nothing can be run on this host. *)

Module Files.

Definition present (w : list string) (p : string) : bool :=
  existsb (String.eqb p) w.

Definition without (p : string) (w : list string) : list string :=
  List.filter (fun f => negb (String.eqb f p)) w.

Definition missing : exn := OSError "No such file or directory".

Definition host : Host (list string) :=
  {| os_path_getsize := fun p w =>
       if present w p then (Ok 0, w) else (Raise missing, w);
     os_path_exists := fun p w => (Ok (present w p), w);
     os_remove := fun p w =>
       if present w p then (Ok tt, without p w) else (Raise missing, w);
     subprocess_run := fun _ w => (Raise missing, w);
     host_popen := fun _ _ w => (Raise missing, w);
     host_communicate := fun _ w => (Raise missing, w);
     time_time := fun w => (Ok 0%R, w) |}.

End Files.

(* ------------------------------------------------------------------ *)
(** ** A host that keeps a log

    Every call succeeds, with the answers of the scripted host, and is
    written at the end of the log; the world is the log.  Every process
    gets the handle 0. *)

Module Logged.

Inductive event : Type :=
| Size (p : string)
| Exists (p : string)
| Removed (p : string)
| Probed (cmd : list string)
| Started (cmd : list string) (stdin : option nat)
| Waited (handle : nat)
| Clock.

Definition host (report : string) : Host (list event) :=
  {| os_path_getsize := fun p w => (Ok 1000, (w ++ [Size p])%list);
     os_path_exists := fun p w => (Ok true, (w ++ [Exists p])%list);
     os_remove := fun p w => (Ok tt, (w ++ [Removed p])%list);
     subprocess_run := fun cmd w =>
       (Ok (Scripted.probe_ok "1920x1080"), (w ++ [Probed cmd])%list);
     host_popen := fun cmd stdin w => (Ok 0%nat, (w ++ [Started cmd stdin])%list);
     host_communicate := fun h w => (Ok ("", report), (w ++ [Waited h])%list);
     time_time := fun w => (Ok 0%R, (w ++ [Clock])%list) |}.






(** The file a job's result is compared through. *)
Definition compared (e : VideoEnc.t) : string :=
  if String.eqb (VideoEnc.encoder e) "dsv2"
  then VideoEnc.dec_y4m_path e
  else VideoEnc.dst_pth e.

End Logged.

(* ================================================================== *)
(** * Properties *)

(** ** Arithmetic *)

Section Arithmetic.
Local Open Scope R_scope.

Lemma ln10_pos : 0 < ln 10.
Proof. rewrite <- ln_1. apply ln_increasing; lra. Qed.

Lemma pow10_pos (y : R) : 0 < pow10 y.
Proof. unfold pow10, Rpower. apply exp_pos. Qed.

Lemma ln_pow10 (y : R) : ln (pow10 y) = y * ln 10.
Proof. unfold pow10, Rpower. apply ln_exp. Qed.



Lemma pow10_lt (a b : R) : a < b -> pow10 a < pow10 b.
Proof. intros Hab. unfold pow10. apply Rpower_lt; lra. Qed.

Lemma fdiv_ok (a b : R) : b <> 0 -> fdiv a b = Ok (a / b).
Proof. intros Hb. unfold fdiv. destruct (Req_dec_T b 0); [contradiction | reflexivity]. Qed.

Lemma fdiv_zero (a : R) : fdiv a 0 = Raise ZeroDivisionError.
Proof. unfold fdiv. destruct (Req_dec_T 0 0); [reflexivity | contradiction]. Qed.

Lemma math_log10_ok (x : R) : 0 < x -> math_log10 x = Ok (ln x / ln 10).
Proof. intros Hx. unfold math_log10. destruct (Rlt_dec 0 x); [reflexivity | contradiction]. Qed.

(** [psnr_to_mse] never raises: the divisor is a power of ten. *)
Lemma psnr_to_mse_ok (p : R) (m : Z) :
  psnr_to_mse p m = Ok (IZR (m ^ 2) / pow10 (p / 10)).
Proof.
  unfold psnr_to_mse. apply fdiv_ok.
  pose proof (pow10_pos (p / 10)). lra.
Qed.

Lemma mse_to_db_ok (m : Z) (x : R) :
  0 < x -> (m <> 0)%Z ->
  mse_to_db m x = Ok (10 * (ln (IZR (m ^ 2) / x) / ln 10)).
Proof.
  intros Hx Hm. unfold mse_to_db.
  assert (Hsq : 0 < IZR (m ^ 2)) by (apply IZR_lt; nia).
  rewrite fdiv_ok by lra. cbn [rbind].
  rewrite math_log10_ok; [reflexivity |].
  apply Rdiv_lt_0_compat; assumption.
Qed.

(** The derivation never raises, and is the documented formula. *)
Lemma weighted_xpsnr_spec (y u v : R) :
  weighted_xpsnr y u v = Ok (Spec.derive y u v).
Proof.
  unfold weighted_xpsnr. rewrite !psnr_to_mse_ok. cbn [rbind].
  pose proof (pow10_pos (y / 10)) as Hy.
  pose proof (pow10_pos (u / 10)) as Hu.
  pose proof (pow10_pos (v / 10)) as Hv.
  assert (Hm : 0 < IZR (255 ^ 2)) by (apply IZR_lt; lia).
  assert (H1 : 0 < IZR (255 ^ 2) / pow10 (y / 10)) by (apply Rdiv_lt_0_compat; lra).
  assert (H2 : 0 < IZR (255 ^ 2) / pow10 (u / 10)) by (apply Rdiv_lt_0_compat; lra).
  assert (H3 : 0 < IZR (255 ^ 2) / pow10 (v / 10)) by (apply Rdiv_lt_0_compat; lra).
  rewrite mse_to_db_ok; [| lra | lia].
  unfold Spec.derive, Spec.weightedXpsnr, Spec.weightedMse, Spec.mse,
    Spec.log10, Spec.peak, pow10.
  replace (IZR (255 ^ 2)) with (255 ^ 2) by (simpl; lra).
  reflexivity.
Qed.

End Arithmetic.

(** ** The built-ins on examples *)

Section BuiltinExamples.

Example py_int_examples :
  py_int " 1920" = Ok 1920 /\ py_int "-5" = Ok (-5) /\ py_int "1_000" = Ok 1000
  /\ py_int "007" = Ok 7 /\ py_int "" = Raise ValueError
  /\ py_int "1__0" = Raise ValueError /\ py_int "12a" = Raise ValueError
  /\ py_int "- 1" = Raise ValueError.
Proof. repeat split. Qed.

Example split_examples :
  split_on "x" "1920x1080" = ["1920"; "1080"] /\ split_on "x" "" = [""]
  /\ split_on "x" "axbx" = ["a"; "b"; ""]
  /\ split_ws " 40  20 30 " = ["40"; "20"; "30"] /\ split_ws "" = [].
Proof. repeat split. Qed.

Example py_str_examples :
  py_str 23 = "23" /\ py_str 0 = "0" /\ py_str (-5) = "-5".
Proof. repeat split. Qed.

Example path_examples :
  basename "/a/b/clip.mp4" = "clip.mp4" /\ basename "a/" = ""
  /\ splitext "clip.mp4" = ("clip", ".mp4")
  /\ splitext "/a.b/c" = ("/a.b/c", "")
  /\ splitext ".bashrc" = (".bashrc", "")
  /\ splitext "a.b.c" = ("a.b", ".c")
  /\ splitext "out/clip_dsv2_q23.dsv" = ("out/clip_dsv2_q23", ".dsv")
  /\ endswith "a.csv" ".csv" = true /\ endswith "csv" ".csv" = false.
Proof. repeat split. Qed.

Example re_search_examples :
  re_search DstVideo.xpsnr_rgx Scripted.xpsnr_report
  = Some ["40.0"; "42.0"; "42.0"]
  /\ re_search DstVideo.psnr_rgx Scripted.psnr_ssim_report = Some ["39.5"]
  /\ re_search DstVideo.ssim_rgx Scripted.psnr_ssim_report = Some ["0.985"]
  /\ re_search DstVideo.psnr_rgx "average:inf min:inf" = None
  /\ re_search DstVideo.psnr_rgx "average:38. average:38.25x" = Some ["38.25"]
  /\ re_search DstVideo.xpsnr_rgx Scripted.empty_report = None.
Proof. repeat split; vm_compute; reflexivity. Qed.

Example py_float_example : py_float "39.5" = Ok (39 + 5 / 10)%R.
Proof. reflexivity. Qed.

End BuiltinExamples.

(** ** Strings and the pattern matcher *)

Section Strings.

Lemma append_cons (c : ascii) (s t : string) :
  String c s ++ t = String c (s ++ t).
Proof. reflexivity. Qed.

Lemma append_nil_l (s : string) : "" ++ s = s.
Proof. reflexivity. Qed.

Lemma append_nil_r (s : string) : s ++ "" = s.
Proof.
  induction s as [| c s IH]; [reflexivity |].
  now rewrite append_cons, IH.
Qed.

Lemma append_assoc (a b c : string) : (a ++ b) ++ c = a ++ (b ++ c).
Proof.
  induction a as [| x a IH]; [reflexivity |].
  now rewrite !append_cons, IH.
Qed.

Lemma all_in_digit (s : string) : all_in Digit s = all_digits s.
Proof. induction s as [| c s IH]; simpl; [reflexivity | now rewrite IH]. Qed.

Lemma all_in_app (k : cls) (a b : string) :
  all_in k (a ++ b) = all_in k a && all_in k b.
Proof.
  induction a as [| x a IH]; [reflexivity |].
  rewrite append_cons. simpl. rewrite IH. now rewrite andb_assoc.
Qed.

Lemma digit_not_dot (c : ascii) : is_digit c = true -> Ascii.eqb c "." = false.
Proof.
  intros Hd. destruct (Ascii.eqb_spec c ".") as [-> | ]; [discriminate Hd | reflexivity].
Qed.

Lemma split_on_digits (d : string) :
  all_digits d = true -> split_on "." d = [d].
Proof.
  induction d as [| c d IH]; simpl; [reflexivity |].
  intros [Hc Hd]%andb_prop. rewrite (digit_not_dot c Hc), (IH Hd). reflexivity.
Qed.

Lemma split_on_digits_dot (d1 d2 : string) :
  all_digits d1 = true -> all_digits d2 = true ->
  split_on "." (d1 ++ String "." d2) = [d1; d2].
Proof.
  intros H1 H2. induction d1 as [| c d IH].
  - rewrite append_nil_l. simpl. now rewrite (split_on_digits d2 H2).
  - apply andb_prop in H1 as [Hc Hd]. rewrite append_cons. simpl.
    rewrite (digit_not_dot c Hc), (IH Hd). reflexivity.
Qed.

Lemma decimal_parts_digits (d1 d2 : string) :
  d1 <> "" -> d2 <> "" -> all_digits d1 = true -> all_digits d2 = true ->
  decimal_parts (d1 ++ String "." d2) = Some (d1, d2).
Proof.
  intros N1 N2 H1 H2. unfold decimal_parts.
  rewrite (split_on_digits_dot d1 d2 H1 H2), H1, H2.
  apply String.eqb_neq in N1, N2. now rewrite N1, N2.
Qed.

End Strings.

Section Regex.

Lemma rep_inv {A : Type} (k : cls) (cont : string -> string -> option A)
      (s acc : string) (r : A) :
  rep k cont s acc = Some r ->
  exists ds s', all_in k ds = true /\ cont s' (acc ++ ds) = Some r.
Proof.
  revert acc. induction s as [| a s IH]; intros acc Hr; simpl in Hr.
  - exists "", "". now rewrite append_nil_r.
  - destruct (in_cls k a) eqn:Ha.
    + destruct (rep k cont s (acc ++ String a "")) as [r' |] eqn:Hrec.
      * injection Hr as <-. apply IH in Hrec as (ds & s' & Hds & Hc).
        exists (String a ds), s'. split; [simpl; now rewrite Ha |].
        now rewrite append_assoc in Hc.
      * exists "", (String a s). now rewrite append_nil_r.
    + exists "", (String a s). now rewrite append_nil_r.
Qed.

Lemma run_char_inv c p s acc caps g :
  run (TChar c :: p) s acc caps = Some g ->
  exists s', run p s' (acc ++ String c "") caps = Some g.
Proof.
  simpl. destruct s as [| a s]; [discriminate |].
  destruct (Ascii.eqb_spec a c) as [-> |]; [| discriminate].
  intros Hr. now exists s.
Qed.

Lemma run_plus_inv k p s acc caps g :
  run (TPlus k :: p) s acc caps = Some g ->
  exists ds s', ds <> "" /\ all_in k ds = true
                /\ run p s' (acc ++ ds) caps = Some g.
Proof.
  simpl. destruct s as [| a s]; [discriminate |].
  destruct (in_cls k a) eqn:Ha; [| discriminate].
  intros (ds & s' & Hds & Hc)%rep_inv.
  exists (String a ds), s'. split; [discriminate |].
  split; [simpl; now rewrite Ha |].
  now rewrite append_assoc in Hc.
Qed.

Lemma run_star_inv k p s acc caps g :
  run (TStar k :: p) s acc caps = Some g ->
  exists ds s', all_in k ds = true /\ run p s' (acc ++ ds) caps = Some g.
Proof. simpl. apply rep_inv. Qed.

Lemma run_lit_inv l p s acc caps g :
  run (lit l ++ p) s acc caps = Some g ->
  exists s' acc', run p s' acc' caps = Some g.
Proof.
  revert s acc. induction l as [| c l IH]; intros s acc; simpl lit; simpl app.
  - intros Hr. now exists s, acc.
  - intros (s' & Hr)%run_char_inv. eapply IH, Hr.
Qed.

(** What a [(\d+\.\d+)] group captures always reads as a float. *)
Lemma run_decimal_group_inv p s acc caps g :
  run (decimal_group ++ p) s acc caps = Some g ->
  exists x s' acc', decimal_parts x <> None
                    /\ run p s' acc' (x :: caps) = Some g.
Proof.
  unfold decimal_group. simpl app.
  change (run (TOpen :: ?q) s acc caps) with (run q s "" caps).
  intros (d1 & s1 & N1 & D1 & Hr)%run_plus_inv.
  apply run_char_inv in Hr as (s2 & Hr).
  apply run_plus_inv in Hr as (d2 & s3 & N2 & D2 & Hr).
  simpl in Hr. rewrite all_in_digit in D1, D2.
  rewrite append_assoc in Hr. simpl in Hr.
  exists (d1 ++ String "." d2), s3, (d1 ++ String "." d2).
  split; [| exact Hr].
  now rewrite (decimal_parts_digits d1 d2 N1 N2 D1 D2).
Qed.

Lemma re_search_inv p s g :
  re_search p s = Some g -> exists s', run p s' "" [] = Some g.
Proof.
  induction s as [| a s IH]; simpl.
  - destruct (run p "" "" []) eqn:Hr; [| discriminate].
    intros [= <-]. now exists "".
  - destruct (run p (String a s) "" []) eqn:Hr.
    + intros [= <-]. now exists (String a s).
    + exact IH.
Qed.

Lemma py_float_total x : decimal_parts x <> None -> exists f, py_float x = Ok f.
Proof.
  unfold py_float. destruct (decimal_parts x) as [[a b] |]; [| contradiction].
  intros _. eexists. reflexivity.
Qed.

End Regex.

(** ** The state-and-exception monad *)

Section Monad.
Context {S A B : Type}.

Lemma bind_ok (m : M S A) (k : A -> M S B) (s s' : S) (a : A) :
  m s = (Ok a, s') -> bind m k s = k a s'.
Proof. intros E. unfold bind. now rewrite E. Qed.


Lemma bind_lift_ok (r : res A) (k : A -> M S B) (s : S) (a : A) :
  r = Ok a -> bind (lift r) k s = k a s.
Proof. intros ->. reflexivity. Qed.

Lemma bind_inv_ok (m : M S A) (k : A -> M S B) (s s' : S) (b : B) :
  bind m k s = (Ok b, s') ->
  exists a s1, m s = (Ok a, s1) /\ k a s1 = (Ok b, s').
Proof.
  unfold bind. destruct (m s) as [[a | e] s1]; [| discriminate].
  intros Hk. now exists a, s1.
Qed.

Lemma lift_inv_ok (r : res A) (s s' : S) (a : A) :
  lift r s = (Ok a, s') -> r = Ok a /\ s' = s.
Proof. unfold lift. now intros [= -> ->]. Qed.

Lemma rbind_inv_ok (r : res A) (k : A -> res B) (b : B) :
  rbind r k = Ok b -> exists a, r = Ok a /\ k a = Ok b.
Proof. destruct r as [a | e]; [| discriminate]. intros Hk. now exists a. Qed.

End Monad.

Section Loops.
Context {S A B : Type}.


(** A property of the accumulator that every round keeps holds of the
    result of the loop. *)
Lemma for_each_keeps (P : B -> Prop) (body : B -> A -> M S B) (xs : list A) :
  (forall acc x s acc' s', P acc -> body acc x s = (Ok acc', s') -> P acc') ->
  forall acc s r s',
    P acc -> for_each xs acc body s = (Ok r, s') -> P r.
Proof.
  intros Hstep. induction xs as [| x xs IH]; intros acc s r s' HP Hrun.
  - simpl in Hrun. unfold ret in Hrun. now injection Hrun as <- _.
  - simpl in Hrun. apply bind_inv_ok in Hrun as (a & s1 & Hb & Hrest).
    eapply IH; [| exact Hrest]. eapply Hstep; eassumption.
Qed.

End Loops.

(** ** Metric extraction *)

Section Metrics.

(** A score pattern either misses or captures one float. *)
Lemma score_or_zero_total (l err : string) :
  exists n, DstVideo.score_or_zero (re_search (lit l ++ decimal_group) err) = Ok n.
Proof.
  destruct (re_search (lit l ++ decimal_group) err) as [g |] eqn:Hs.
  - apply re_search_inv in Hs as (s' & Hr).
    apply run_lit_inv in Hr as (s1 & acc1 & Hr).
    rewrite <- (app_nil_r decimal_group) in Hr.
    apply run_decimal_group_inv in Hr as (x & s2 & acc2 & Hx & Hr).
    simpl in Hr. injection Hr as <-.
    destruct (py_float_total x Hx) as (f & Hf).
    exists (PyFloat f). simpl. unfold group, index. simpl. now rewrite Hf.
  - now exists (PyInt 0).
Qed.

(** Past [\s+], a two-letter label and [\s*], the next token is a group. *)
Ltac past_label Hr :=
  apply run_plus_inv in Hr as (? & ? & _ & _ & Hr);
  apply run_lit_inv in Hr as (? & ? & Hr);
  apply run_star_inv in Hr as (? & ? & _ & Hr).

(** The XPSNR pattern either misses or captures three floats. *)
Lemma planes_or_zero_total (err : string) :
  exists y u v,
    DstVideo.planes_or_zero (re_search DstVideo.xpsnr_rgx err) = Ok (y, u, v).
Proof.
  destruct (re_search DstVideo.xpsnr_rgx err) as [g |] eqn:Hs.
  - apply re_search_inv in Hs as (s' & Hr).
    unfold DstVideo.xpsnr_rgx in Hr.
    apply run_lit_inv in Hr as (s1 & a1 & Hr).
    past_label Hr.
    apply run_decimal_group_inv in Hr as (gy & ? & ? & Hy & Hr).
    past_label Hr.
    apply run_decimal_group_inv in Hr as (gu & ? & ? & Hu & Hr).
    past_label Hr.
    rewrite <- (app_nil_r decimal_group) in Hr.
    apply run_decimal_group_inv in Hr as (gv & ? & ? & Hv & Hr).
    simpl in Hr. injection Hr as <-.
    destruct (py_float_total gy Hy) as (y & Ey).
    destruct (py_float_total gu Hu) as (u & Eu).
    destruct (py_float_total gv Hv) as (v & Ev).
    exists y, u, v. simpl. unfold group, index. simpl.
    rewrite Ey. simpl. rewrite Eu. simpl. rewrite Ev. reflexivity.
  - now exists 0%R, 0%R, 0%R.
Qed.

Context {W : Type} `{Host W}.

(** [calculate_xpsnr] once its process has been waited for. *)
Lemma calculate_xpsnr_run (self : DstVideo.t) (src : CoreVideo.t)
      (w w1 w2 : W) (p : nat) (out err : string) :
  Popen (DstVideo.xpsnr_cmd (CoreVideo.path src) (DstVideo.path self)) None w
    = (Ok p, w1) ->
  host_communicate p w1 = (Ok (out, err), w2) ->
  exists y u v,
    DstVideo.planes_or_zero (re_search DstVideo.xpsnr_rgx err) = Ok (y, u, v)
    /\ DstVideo.calculate_xpsnr self src w
       = (Ok (DstVideo.set_xpsnr self y u v (Spec.derive y u v)), w2).
Proof.
  intros Hp Hc.
  destruct (planes_or_zero_total err) as (y & u & v & Hyuv).
  exists y, u, v. split; [exact Hyuv |].
  unfold DstVideo.calculate_xpsnr.
  rewrite (bind_ok _ _ _ _ _ Hp), (bind_ok _ _ _ _ _ Hc).
  rewrite (bind_lift_ok _ _ _ _ Hyuv).
  rewrite (bind_lift_ok _ _ _ _ (weighted_xpsnr_spec y u v)).
  reflexivity.
Qed.

Lemma calculate_psnr_ssim_run (self : DstVideo.t) (src : CoreVideo.t)
      (w w1 w2 : W) (p : nat) (out err : string) :
  Popen (DstVideo.psnr_ssim_cmd (CoreVideo.path src) (DstVideo.path self)) None w
    = (Ok p, w1) ->
  host_communicate p w1 = (Ok (out, err), w2) ->
  exists a b,
    DstVideo.score_or_zero (re_search DstVideo.psnr_rgx err) = Ok a
    /\ DstVideo.score_or_zero (re_search DstVideo.ssim_rgx err) = Ok b
    /\ DstVideo.calculate_psnr_ssim self src w
       = (Ok (DstVideo.set_psnr_ssim self a b), w2).
Proof.
  intros Hp Hc.
  destruct (score_or_zero_total "average:" err) as (a & Ha).
  destruct (score_or_zero_total "All:" err) as (b & Hb).
  exists a, b. split; [exact Ha |]. split; [exact Hb |].
  unfold DstVideo.calculate_psnr_ssim.
  rewrite (bind_ok _ _ _ _ _ Hp), (bind_ok _ _ _ _ _ Hc).
  unfold DstVideo.psnr_rgx, DstVideo.ssim_rgx.
  rewrite (bind_lift_ok _ _ _ _ Ha), (bind_lift_ok _ _ _ _ Hb).
  reflexivity.
Qed.

End Metrics.



(** C8.  When the backend's report has no match for a metric, the field is
    zero and nothing is raised: [calculate_psnr_ssim] returns with [psnr]
    (and likewise [ssim]) holding 0 on a miss of its pattern, and
    [calculate_xpsnr] returns with its three plane fields at 0.0 on a miss
    of the XPSNR pattern.  The zero left in [psnr] and [ssim] is the [int]
    0, which compares equal to 0.0. *)
Theorem metric_miss_is_zero {W : Type} `{Host W}
        (self : DstVideo.t) (src : CoreVideo.t) (w : W)
        (w1 w2 : W) (p : nat) (out err : string)
        (w1' w2' : W) (p' : nat) (out' err' : string) :
  Popen (DstVideo.psnr_ssim_cmd (CoreVideo.path src) (DstVideo.path self)) None w
    = (Ok p, w1) ->
  host_communicate p w1 = (Ok (out, err), w2) ->
  Popen (DstVideo.xpsnr_cmd (CoreVideo.path src) (DstVideo.path self)) None w
    = (Ok p', w1') ->
  host_communicate p' w1' = (Ok (out', err'), w2') ->
  (exists v',
      DstVideo.calculate_psnr_ssim self src w = (Ok v', w2)
      /\ (re_search DstVideo.psnr_rgx err = None ->
          DstVideo.psnr v' = PyInt 0 /\ num_val (DstVideo.psnr v') = 0%R)
      /\ (re_search DstVideo.ssim_rgx err = None ->
          DstVideo.ssim v' = PyInt 0 /\ num_val (DstVideo.ssim v') = 0%R))
  /\ (exists v',
        DstVideo.calculate_xpsnr self src w = (Ok v', w2')
        /\ (re_search DstVideo.xpsnr_rgx err' = None ->
            DstVideo.xpsnr_y v' = 0%R /\ DstVideo.xpsnr_u v' = 0%R
            /\ DstVideo.xpsnr_v v' = 0%R)).
Proof.
  intros Hp Hc Hp' Hc'. split.
  - destruct (calculate_psnr_ssim_run self src w w1 w2 p out err Hp Hc)
      as (a & b & Ha & Hb & Hrun).
    eexists. split; [exact Hrun |]. cbn [DstVideo.set_psnr_ssim DstVideo.psnr DstVideo.ssim].
    split; intros Hmiss.
    + rewrite Hmiss in Ha. injection Ha as <-. split; reflexivity.
    + rewrite Hmiss in Hb. injection Hb as <-. split; reflexivity.
  - destruct (calculate_xpsnr_run self src w w1' w2' p' out' err' Hp' Hc')
      as (y & u & v & Hyuv & Hrun).
    eexists. split; [exact Hrun |]. intros Hmiss.
    rewrite Hmiss in Hyuv. injection Hyuv as <- <- <-.
    repeat split.
Qed.

Lemma metric_miss_is_zero_witness :
  let h := Scripted.host 1000 (Scripted.probe_ok "1920x1080") Scripted.empty_report in
  (exists v',
      DstVideo.calculate_psnr_ssim (H := h) Scripted.encoded Scripted.clip 0%nat
      = (Ok v', 1%nat)
      /\ (re_search DstVideo.psnr_rgx Scripted.empty_report = None ->
          DstVideo.psnr v' = PyInt 0 /\ num_val (DstVideo.psnr v') = 0%R)
      /\ (re_search DstVideo.ssim_rgx Scripted.empty_report = None ->
          DstVideo.ssim v' = PyInt 0 /\ num_val (DstVideo.ssim v') = 0%R))
  /\ (exists v',
        DstVideo.calculate_xpsnr (H := h) Scripted.encoded Scripted.clip 0%nat
        = (Ok v', 1%nat)
        /\ (re_search DstVideo.xpsnr_rgx Scripted.empty_report = None ->
            DstVideo.xpsnr_y v' = 0%R /\ DstVideo.xpsnr_u v' = 0%R
            /\ DstVideo.xpsnr_v v' = 0%R)).
Proof.
  intros h.
  apply (metric_miss_is_zero (H := h) Scripted.encoded Scripted.clip 0%nat
           1%nat 1%nat 0%nat "" Scripted.empty_report
           1%nat 1%nat 0%nat "" Scripted.empty_report); reflexivity.
Defined.

(** ** The weighted-XPSNR derivation *)

Section Derivation.
Local Open Scope R_scope.

(** C3.  For the plane scores Y = 40.0, U = 42.0 and V = 42.0 (peak 255)
    the derivation returns a value strictly between 40.0 and 42.0. *)
Theorem weighted_between :
  exists w, weighted_xpsnr 40 42 42 = Ok w /\ 40 < w < 42.
Proof.
  exists (Spec.derive 40 42 42). split; [apply weighted_xpsnr_spec |].
  unfold Spec.derive, Spec.weightedXpsnr, Spec.weightedMse, Spec.mse,
    Spec.log10, Spec.peak.
  fold (pow10 (40 / 10)). fold (pow10 (42 / 10)).
  set (A := pow10 (40 / 10)). set (B := pow10 (42 / 10)).
  assert (HA : 0 < A) by apply pow10_pos.
  assert (HAB : A < B) by (apply pow10_lt; lra).
  set (X := 255 ^ 2 / ((4 * (255 ^ 2 / A) + 255 ^ 2 / B + 255 ^ 2 / B) / 6)).
  assert (EX : X = 6 * A * B / (4 * B + 2 * A)) by (unfold X; field; lra).
  assert (HX : A < X < B).
  { rewrite EX. split.
    - apply Rmult_lt_reg_r with (4 * B + 2 * A); [lra |].
      unfold Rdiv. rewrite Rmult_assoc, Rinv_l by lra. nra.
    - apply Rmult_lt_reg_r with (4 * B + 2 * A); [lra |].
      unfold Rdiv. rewrite Rmult_assoc, Rinv_l by lra. nra. }
  pose proof ln10_pos as L.
  assert (LA : ln A = 40 / 10 * ln 10) by apply ln_pow10.
  assert (LB : ln B = 42 / 10 * ln 10) by apply ln_pow10.
  assert (L1 : ln A < ln X) by (apply ln_increasing; lra).
  assert (L2 : ln X < ln B) by (apply ln_increasing; lra).
  split.
  - apply Rmult_lt_reg_r with (ln 10 / 10); [lra |].
    replace (10 * (ln X / ln 10) * (ln 10 / 10)) with (ln X) by (field; lra).
    lra.
  - apply Rmult_lt_reg_r with (ln 10 / 10); [lra |].
    replace (10 * (ln X / ln 10) * (ln 10 / 10)) with (ln X) by (field; lra).
    lra.
Qed.












End Derivation.

(** ** Probing a video *)

Section Probe.


Context {W : Type} `{Host W}.

Lemma core_init_run (pth : string) (w w0 w1 : W) (sz : Z)
      (result : CompletedProcess) :
  os_path_getsize pth w = (Ok sz, w0) ->
  subprocess_run (CoreVideo.ffprobe_cmd pth) w0 = (Ok result, w1) ->
  CoreVideo.init pth w
  = match CoreVideo.dimensions_of result with
    | Ok (wd, ht) =>
        (Ok {| CoreVideo.path := pth; CoreVideo.name := basename pth;
               CoreVideo.size := sz; CoreVideo.video_width := wd;
               CoreVideo.video_height := ht |}, w1)
    | Raise e => (Raise e, w1)
    end.
Proof.
  intros Hsz Hrun. unfold CoreVideo.init, CoreVideo.get_input_filesize.
  rewrite (bind_ok _ _ _ _ _ Hsz).
  unfold CoreVideo.get_video_dimensions.
  unfold bind at 1. unfold bind at 1. rewrite Hrun. unfold lift.
  destruct (CoreVideo.dimensions_of result) as [[wd ht] | e]; reflexivity.
Qed.

End Probe.

(** ** Destination paths and the encode job *)

Section Paths.

Lemma splitext_name_join (lead : bool) (s : string) :
  fst (splitext_name lead s) ++ snd (splitext_name lead s) = s.
Proof.
  revert lead. induction s as [| c s IH]; intros lead; [reflexivity |].
  simpl. specialize (IH (lead && Ascii.eqb c ".")).
  destruct (splitext_name (lead && Ascii.eqb c ".") s) as [r e].
  simpl in IH. destruct e as [| x e].
  - destruct (Ascii.eqb c "." && negb lead); simpl.
    + reflexivity.
    + rewrite append_cons. now rewrite IH.
  - simpl. rewrite append_cons. now rewrite IH.
Qed.

Lemma dirname_basename_from (seen cur p : string) :
  dirname_from seen cur p ++ basename_from cur p = seen ++ cur ++ p.
Proof.
  revert seen cur. induction p as [| c p IH]; intros seen cur; simpl.
  - now rewrite append_nil_r.
  - destruct (Ascii.eqb_spec c "/") as [-> | N].
    + rewrite IH. rewrite append_nil_l, !append_assoc. reflexivity.
    + rewrite IH. rewrite !append_assoc. reflexivity.
Qed.

(** [root + ext == path], as the library documents [splitext]. *)
Lemma splitext_join (p : string) :
  fst (splitext p) ++ snd (splitext p) = p.
Proof.
  unfold splitext.
  pose proof (splitext_name_join true (basename p)) as Hj.
  destruct (splitext_name true (basename p)) as [r e]. simpl in *.
  rewrite append_assoc, Hj. unfold basename.
  now rewrite dirname_basename_from.
Qed.

Lemma get_ext_table (encoder : string) :
  (encoder = "x264" -> VideoEnc.get_ext encoder = "264")
  /\ (encoder = "dirac" -> VideoEnc.get_ext encoder = "mkv")
  /\ (encoder = "snow" -> VideoEnc.get_ext encoder = "avi")
  /\ (encoder <> "x264" -> encoder <> "dirac" -> encoder <> "snow" ->
      VideoEnc.get_ext encoder = "dsv").
Proof.
  repeat split; try (intros ->; reflexivity).
  intros N1 N2 N3. unfold VideoEnc.get_ext.
  apply String.eqb_neq in N1, N2, N3. now rewrite N1, N2, N3.
Qed.

End Paths.

(** C5.  With no destination given, the destination of an encode job is
    [<stem>_<encoder>_q<quality>.<ext>], the stem being the source name
    without its extension and the extension being 264 for x264, mkv for
    dirac, avi for snow and dsv for anything else; for the source name
    clip.mp4, the encoder x264 and the quality 23 it is
    clip_x264_q23.264. *)
Theorem derived_destination (src : CoreVideo.t) (q : Z) (encoder : string)
        (encoder_args : list string) (dst_pth : option string) :
  VideoEnc.not_given dst_pth = true ->
  let stem := fst (splitext (CoreVideo.name src)) in
  let ext := VideoEnc.get_ext encoder in
  VideoEnc.dst_pth (VideoEnc.init src q encoder encoder_args dst_pth)
  = stem ++ "_" ++ encoder ++ "_q" ++ py_str q ++ "." ++ ext
  /\ (encoder = "x264" -> ext = "264")
  /\ (encoder = "dirac" -> ext = "mkv")
  /\ (encoder = "snow" -> ext = "avi")
  /\ (encoder <> "x264" -> encoder <> "dirac" -> encoder <> "snow" -> ext = "dsv")
  /\ (CoreVideo.name src = "clip.mp4" -> encoder = "x264" -> q = 23 ->
      VideoEnc.dst_pth (VideoEnc.init src q encoder encoder_args dst_pth)
      = "clip_x264_q23.264").
Proof.
  intros Hng stem ext.
  assert (E : VideoEnc.dst_pth (VideoEnc.init src q encoder encoder_args dst_pth)
              = stem ++ "_" ++ encoder ++ "_q" ++ py_str q ++ "." ++ ext).
  { unfold VideoEnc.init. rewrite Hng. reflexivity. }
  split; [exact E |].
  destruct (get_ext_table encoder) as (T1 & T2 & T3 & T4).
  repeat split; try assumption.
  intros Hn He Hq. rewrite E. subst stem ext. rewrite Hn, He, Hq. reflexivity.
Qed.

Lemma derived_destination_witness :
  VideoEnc.dst_pth (VideoEnc.init Scripted.clip 23 "x264" [] None)
  = "clip_x264_q23.264".
Proof.
  apply (derived_destination Scripted.clip 23 "x264" [] None); reflexivity.
Defined.

Section Encoding.

Lemma append_nonempty (a b : string) : b <> "" -> a ++ b <> "".
Proof.
  intros Hb. destruct a as [| c a]; [exact Hb | discriminate].
Qed.

Lemma init_dst_nonempty (src : CoreVideo.t) (q : Z) (encoder : string)
      (encoder_args : list string) (dst_pth : option string) :
  VideoEnc.dst_pth (VideoEnc.init src q encoder encoder_args dst_pth) <> "".
Proof.
  unfold VideoEnc.init. cbn [VideoEnc.dst_pth].
  destruct (VideoEnc.not_given dst_pth) eqn:Hng.
  - apply append_nonempty. discriminate.
  - destruct dst_pth as [p |]; [| discriminate Hng].
    simpl in Hng. now apply String.eqb_neq in Hng.
Qed.

Lemma dec_y4m_nonempty (self : VideoEnc.t) : VideoEnc.dec_y4m_path self <> "".
Proof. unfold VideoEnc.dec_y4m_path. apply append_nonempty. discriminate. Qed.

Context {W : Type} `{Host W}.

Lemma popen_nonempty (c : string) (cmd : list string) (stdin : option nat) :
  Popen (c :: cmd) stdin = host_popen (c :: cmd) stdin.
Proof. reflexivity. Qed.

Lemma dst_init_paths (pth e_pth : string) (w w' : W) (v : DstVideo.t) :
  DstVideo.init pth e_pth w = (Ok v, w') ->
  DstVideo.path v = pth /\ DstVideo.enc_path v = e_pth.
Proof.
  unfold DstVideo.init.
  intros (sz & w1 & _ & Hr)%bind_inv_ok.
  apply bind_inv_ok in Hr as ([wd ht] & w2 & _ & Hr).
  unfold ret in Hr. injection Hr as <- _. split; reflexivity.
Qed.

(** One step of a job that returned, whatever it produced. *)
Ltac past_step Hr := apply bind_inv_ok in Hr as (? & ? & _ & Hr).

(** The end of [encode]: the pair it returns and the [DstVideo] in it. *)
Ltac built_from Hr Hv :=
  unfold ret in Hr; injection Hr as <- <- _;
  apply bind_inv_ok in Hv as (? & ? & Hv & Hr);
  unfold ret in Hr; injection Hr as <- <- _;
  apply dst_init_paths in Hv as [-> ->];
  cbn [VideoEnc.set_time VideoEnc.dst_pth].

(** When [encode] returns, the encoder is one of the three it has a
    branch for, and the result is built from the path to compare and the
    path of the encoded file. *)
Lemma encode_result_paths (self self' : VideoEnc.t) (v : DstVideo.t) (w w' : W) :
  VideoEnc.encode self w = (Ok (self', v), w') ->
  DstVideo.enc_path v = VideoEnc.dst_pth self
  /\ ((VideoEnc.encoder self = "dsv2"
       /\ DstVideo.path v = VideoEnc.dec_y4m_path self)
      \/ ((VideoEnc.encoder self = "x264" \/ VideoEnc.encoder self = "snow")
          /\ DstVideo.path v = VideoEnc.dst_pth self)).
Proof.
  unfold VideoEnc.encode, VideoEnc.commands.
  destruct (String.eqb_spec (VideoEnc.encoder self) "x264") as [Ex | Nx].
  - rewrite Ex. cbn [String.eqb Ascii.eqb Bool.eqb negb].
    intros ([s1 d1] & w1 & Hr & Hv)%bind_inv_ok.
    do 5 past_step Hr. built_from Hr Hv.
    split; [reflexivity | right]. split; [now left | reflexivity].
  - destruct (String.eqb_spec (VideoEnc.encoder self) "dsv2") as [Ed | Nd].
    + intros ([s1 d1] & w1 & Hr & Hv)%bind_inv_ok.
      do 7 past_step Hr. built_from Hr Hv.
      split; [reflexivity | left]. split; [exact Ed | reflexivity].
    + destruct (String.eqb_spec (VideoEnc.encoder self) "snow") as [Es | Ns];
        cbn [negb].
      * intros ([s1 d1] & w1 & Hr & Hv)%bind_inv_ok.
        do 4 past_step Hr. built_from Hr Hv.
        split; [reflexivity | right]. split; [now right | reflexivity].
      * intros ([s1 d1] & w1 & Hr & Hv)%bind_inv_ok.
        do 2 past_step Hr.
        apply bind_inv_ok in Hr as (? & ? & Hp & Hr).
        discriminate Hp.
Qed.

End Encoding.

(** On the scripted host the x264 and the dsv2 jobs do return. *)
Lemma encode_x264_scripted :
  exists self' v w',
    VideoEnc.encode (H := Scripted.host 1000 (Scripted.probe_ok "1920x1080") "")
                    (VideoEnc.init Scripted.clip 23 "x264" [] None) 0%nat
    = (Ok (self', v), w')
    /\ DstVideo.path v = "clip_x264_q23.264"
    /\ DstVideo.enc_path v = "clip_x264_q23.264".
Proof. eexists _, _, _. split; [reflexivity | split; reflexivity]. Qed.

Lemma encode_dsv2_scripted :
  exists self' v w',
    VideoEnc.encode (H := Scripted.host 1000 (Scripted.probe_ok "1920x1080") "")
                    (VideoEnc.init Scripted.clip 23 "dsv2" [] None) 0%nat
    = (Ok (self', v), w')
    /\ DstVideo.path v = "clip_dsv2_q23_decoded.y4m"
    /\ DstVideo.enc_path v = "clip_dsv2_q23.dsv".
Proof. eexists _, _, _. split; [reflexivity | split; reflexivity]. Qed.

(** C1, at the encoder the code misses.  [dirac] is one of the encoders
    the command line accepts and [get_ext] knows it, but [encode] has no
    branch for it: the encoder command stays empty and so does the path to
    compare, and the job raises instead of returning a [DstVideo]. *)
Theorem encode_dirac {W : Type} `{Host W} (src : CoreVideo.t) (q : Z)
        (encoder_args : list string) (dst_pth : option string) (w : W) :
  In "dirac" Encode.choices
  /\ (let self := VideoEnc.init src q "dirac" encoder_args dst_pth in
      (exists ff_cmd, VideoEnc.commands self = (ff_cmd, [], ""))
      /\ exists e w', VideoEnc.encode self w = (Raise e, w')).
Proof.
  split; [simpl; tauto |].
  intros self. split.
  - eexists. unfold VideoEnc.commands. reflexivity.
  - unfold VideoEnc.encode. unfold VideoEnc.commands.
    change (VideoEnc.encoder self) with "dirac".
    cbn [String.eqb Ascii.eqb Bool.eqb negb].
    unfold bind at 1. unfold bind at 1.
    rewrite popen_nonempty.
    destruct (host_popen _ None w) as [[ff_proc | e] w1] eqn:Hff.
    + unfold bind at 1.
      destruct (time_time w1) as [[t0 | e] w2].
      * unfold bind at 1. unfold Popen at 1. unfold raise.
        eexists _, _. reflexivity.
      * eexists _, _. reflexivity.
    + eexists _, _. reflexivity.
Qed.

(** ** The batch aggregator *)

Section Averages.

Lemma num_val_add (a b : pynum) :
  num_val (py_add a b) = (num_val a + num_val b)%R.
Proof. destruct a, b; simpl; try reflexivity. apply plus_IZR. Qed.

Lemma num_val_fold (xs : list pynum) (acc : pynum) :
  num_val (fold_left py_add xs acc)
  = (num_val acc + fold_right Rplus 0 (map num_val xs))%R.
Proof.
  revert acc. induction xs as [| x xs IH]; intros acc; simpl.
  - lra.
  - rewrite IH, num_val_add. lra.
Qed.

Lemma num_val_sum (xs : list pynum) :
  num_val (py_sum xs) = fold_right Rplus 0%R (map num_val xs).
Proof. unfold py_sum. rewrite num_val_fold. simpl. lra. Qed.

Lemma map_res_map {A B C : Type} (f : B -> res C) (g : A -> B) (xs : list A) :
  map_res f (map g xs) = map_res (fun x => f (g x)) xs.
Proof.
  induction xs as [| x xs IH]; simpl; [reflexivity |]. now rewrite IH.
Qed.

Lemma map_res_ext {A B : Type} (f g : A -> res B) (xs : list A) :
  (forall x, f x = g x) -> map_res f xs = map_res g xs.
Proof.
  intros E. induction xs as [| x xs IH]; simpl; [reflexivity |].
  now rewrite E, IH.
Qed.

(** Reading a column by index, as the generator does, gives the column. *)
Lemma column_read (tbl : list (gmap Z pynum)) (q : Z) :
  Forall (fun d => is_Some (d !! q)) tbl ->
  exists xs,
    map_res (Stats.get_cell tbl q) (seq 0 (length tbl)) = Ok xs
    /\ map num_val xs = Spec.column tbl q.
Proof.
  induction tbl as [| d tbl IH]; intros Hall.
  - exists []. split; reflexivity.
  - apply Forall_cons_1 in Hall as [[v Hv] Hall].
    destruct (IH Hall) as (xs & Hxs & Hcol).
    exists (v :: xs). split.
    + cbn [length seq map_res]. unfold Stats.get_cell at 1. simpl. rewrite Hv.
      cbn [rbind]. rewrite <- seq_shift, map_res_map.
      rewrite (map_res_ext _ (Stats.get_cell tbl q)) by reflexivity.
      now rewrite Hxs.
    + simpl. now rewrite Hv, Hcol.
Qed.

Lemma average_mean (quality_list : list Z) (n : nat)
      (tbl : list (gmap Z pynum)) (q : Z) :
  (0 < n)%nat -> Stats.filled quality_list n tbl -> In q quality_list ->
  Stats.average tbl q n = Ok (Spec.mean (Spec.column tbl q)).
Proof.
  intros Hn [Hlen Hall] Hq.
  assert (Hcol : Forall (fun d => is_Some (d !! q)) tbl).
  { eapply Forall_impl; [exact Hall |]. intros d Hd. simpl in Hd.
    rewrite Forall_forall in Hd. apply Hd. now apply list_elem_of_In. }
  destruct (column_read tbl q Hcol) as (xs & Hxs & Hmap).
  unfold Stats.average. rewrite <- Hlen, Hxs. cbn [rbind].
  unfold py_truediv. rewrite num_val_sum, Hmap. cbn [num_val].
  rewrite fdiv_ok.
  - unfold Spec.mean. f_equal. f_equal.
    unfold Spec.column. rewrite length_map.
    now rewrite INR_IZR_INZ.
  - apply not_0_IZR. lia.
Qed.

Lemma summary_row_spec (quality_list : list Z) (n : nat)
      (cum : Stats.tables) (q : Z) :
  (0 < n)%nat -> Stats.tables_filled quality_list n cum -> In q quality_list ->
  Stats.summary_row cum n q = Ok (Spec.summary cum q).
Proof.
  intros Hn (Hs & Ht & Hp & Hss & Hw) Hq. unfold Stats.summary_row.
  rewrite (average_mean quality_list n _ q Hn Ht Hq). cbn [rbind].
  rewrite (average_mean quality_list n _ q Hn Hs Hq). cbn [rbind].
  rewrite (average_mean quality_list n _ q Hn Hp Hq). cbn [rbind].
  rewrite (average_mean quality_list n _ q Hn Hss Hq). cbn [rbind].
  rewrite (average_mean quality_list n _ q Hn Hw Hq). cbn [rbind].
  reflexivity.
Qed.

End Averages.

Section Truncation.
Local Open Scope R_scope.





End Truncation.

Section Tables.

Lemma dict_of_keys (quality_list : list Z) (v : pynum) (q : Z) :
  In q quality_list -> is_Some (Stats.dict_of quality_list v !! q).
Proof.
  unfold Stats.dict_of.
  assert (G : forall d : gmap Z pynum,
             In q quality_list \/ is_Some (d !! q) ->
             is_Some (fold_left (fun d q => <[q := v]> d) quality_list d !! q)).
  { induction quality_list as [| x l IH]; intros d [Hin | Hd]; simpl.
    - contradiction.
    - exact Hd.
    - apply IH. destruct Hin as [-> | Hin]; [right | now left].
      rewrite lookup_insert_eq. now eexists.
    - apply IH. right. apply lookup_insert_is_Some. destruct (decide (x = q)); auto. }
  intros Hin. apply G. now left.
Qed.

Lemma initial_filled (n : nat) (quality_list : list Z) :
  Stats.tables_filled quality_list n (Stats.initial_tables n quality_list).
Proof.
  assert (G : forall v, Stats.filled quality_list n
                          (replicate n (Stats.dict_of quality_list v))).
  { intros v. split; [apply length_replicate |].
    apply Forall_replicate. apply Forall_forall. intros q Hq.
    apply dict_of_keys. now apply list_elem_of_In. }
  repeat split; apply G.
Qed.

Lemma set_cell_filled (quality_list : list Z) (n i : nat) (q : Z) (v : pynum)
      (tbl tbl' : list (gmap Z pynum)) :
  Stats.filled quality_list n tbl ->
  Stats.set_cell tbl i q v = Ok tbl' ->
  Stats.filled quality_list n tbl'.
Proof.
  intros [Hlen Hall]. unfold Stats.set_cell.
  destruct (tbl !! i) as [d |] eqn:Hd; [| discriminate].
  intros [= <-]. split; [now rewrite length_insert |].
  apply Forall_insert; [exact Hall |].
  pose proof (Forall_lookup_1 _ _ _ _ Hall Hd) as Hkeys. simpl in Hkeys.
  eapply Forall_impl; [exact Hkeys |]. intros k Hk. simpl.
  apply lookup_insert_is_Some. destruct (decide (q = k)); auto.
Qed.

Lemma record_cell_filled (quality_list : list Z) (n i : nat) (q : Z)
      (e_time : R) (v : DstVideo.t) (cum cum' : Stats.tables) :
  Stats.tables_filled quality_list n cum ->
  Stats.record_cell cum i q e_time v = Ok cum' ->
  Stats.tables_filled quality_list n cum'.
Proof.
  intros (Hs & Ht & Hp & Hss & Hw). unfold Stats.record_cell.
  intros (t' & Et & Hr)%rbind_inv_ok.
  apply rbind_inv_ok in Hr as (s' & Es & Hr).
  apply rbind_inv_ok in Hr as (p' & Ep & Hr).
  apply rbind_inv_ok in Hr as (ss' & Ess & Hr).
  apply rbind_inv_ok in Hr as (w' & Ew & Hr).
  injection Hr as <-. unfold Stats.tables_filled. simpl.
  split; [| split; [| split; [| split]]];
    (eapply set_cell_filled; [| eassumption]; assumption).
Qed.

End Tables.

Section Batch.
Context {W : Type} `{Host W}.

Lemma run_cell_filled (quality_list : list Z) (n : nat)
      (enc : string) (enc_args : list string) (clean : bool)
      (s : CoreVideo.t) (i : nat) (cum cum' : Stats.tables) (q : Z)
      (st st' : Stats.state W) :
  Stats.tables_filled quality_list n cum ->
  Stats.run_cell enc enc_args clean s i cum q st = (Ok cum', st') ->
  Stats.tables_filled quality_list n cum'.
Proof.
  intros Hf. unfold Stats.run_cell.
  intros ([e' v] & s1 & _ & Hr)%bind_inv_ok.
  apply bind_inv_ok in Hr as (t & s2 & _ & Hr).
  apply bind_inv_ok in Hr as (v1 & s3 & _ & Hr).
  apply bind_inv_ok in Hr as (v2 & s4 & _ & Hr).
  apply bind_inv_ok in Hr as (cum1 & s5 & [Hrec _]%lift_inv_ok & Hr).
  assert (Hf1 : Stats.tables_filled quality_list n cum1)
    by (eapply record_cell_filled; eassumption).
  destruct clean.
  - apply bind_inv_ok in Hr as (u & s6 & _ & Hr).
    unfold ret in Hr. now injection Hr as <- _.
  - unfold ret in Hr. now injection Hr as <- _.
Qed.

(** The loop over the videos keeps the tables filled and counts the
    videos. *)
Lemma run_cells_filled (quality_list : list Z) (n : nat)
      (enc : string) (enc_args : list string) (clean : bool)
      (src_pth : list string) :
  forall (cum0 cum : Stats.tables) (i0 i : nat) (st st' : Stats.state W),
    Stats.tables_filled quality_list n cum0 ->
    for_each src_pth (cum0, i0) (fun '(cum, i) src =>
      do s <- Stats.on_host (CoreVideo.init src);
      do cum' <- for_each quality_list cum
                   (Stats.run_cell enc enc_args clean s i);
      ret (cum', S i)) st = (Ok (cum, i), st') ->
    Stats.tables_filled quality_list n cum
    /\ i = (i0 + length src_pth)%nat.
Proof.
  induction src_pth as [| src rest IH]; intros cum0 cum i0 i st st' Hf Hrun.
  - simpl in Hrun. unfold ret in Hrun. injection Hrun as <- <- _.
    split; [exact Hf | simpl; lia].
  - simpl in Hrun. apply bind_inv_ok in Hrun as ([cum1 i1] & s1 & Hbody & Hrest).
    apply bind_inv_ok in Hbody as (s & s2 & _ & Hbody).
    apply bind_inv_ok in Hbody as (cum2 & s3 & Hloop & Hret).
    unfold ret in Hret. injection Hret as <- <- _.
    assert (Hf2 : Stats.tables_filled quality_list n cum2).
    { eapply (for_each_keeps (Stats.tables_filled quality_list n));
        [| exact Hf | exact Hloop].
      intros acc x sa acc' sa' Hacc Hstep. eapply run_cell_filled; eassumption. }
    destruct (IH _ _ _ _ _ _ Hf2 Hrest) as [Hfin Hi].
    split; [exact Hfin | simpl; lia].
Qed.

Lemma store_set_same (fs : Stats.store) (f : string) (ls : list Stats.csv_line) :
  Stats.store_set fs f ls f = Some ls.
Proof. unfold Stats.store_set. now rewrite String.eqb_refl. Qed.

Lemma store_set_other (fs : Stats.store) (f g : string) (ls : list Stats.csv_line) :
  g <> f -> Stats.store_set fs f ls g = fs g.
Proof.
  intros N. unfold Stats.store_set. apply String.eqb_neq in N. now rewrite N.
Qed.

Lemma appended_cons (old : option (list Stats.csv_line)) (r : Stats.row)
      (rows : list Stats.row) :
  Spec.appended
    (Some match old with
          | None => [Stats.Header; Stats.Line r]
          | Some ls => (ls ++ [Stats.Line r])%list
          end) rows
  = Spec.appended old (r :: rows).
Proof.
  destruct rows as [| r' rows]; destruct old as [ls |]; simpl; try reflexivity.
  - now rewrite <- app_assoc.
Qed.

(** Lines 141-155 write the summary rows of the qualities, in the order
    of the list, after what the report held. *)
Lemma summarise_run (csv_out : string) (quality_list : list Z)
      (cum : Stats.tables) (n : nat) :
  (forall q, In q quality_list ->
             Stats.summary_row cum n q = Ok (Spec.summary cum q)) ->
  forall st : Stats.state W,
  exists st',
    Stats.summarise csv_out quality_list cum n st = (Ok tt, st')
    /\ Stats.host st' = Stats.host st
    /\ Stats.files st' (Stats.csv_name csv_out)
       = Spec.appended (Stats.files st (Stats.csv_name csv_out))
                       (map (Spec.summary cum) quality_list)
    /\ forall f, f <> Stats.csv_name csv_out ->
                 Stats.files st' f = Stats.files st f.
Proof.
  unfold Stats.summarise.
  induction quality_list as [| q l IH]; intros Hrows st.
  - exists st. repeat split.
  - simpl for_each.
    assert (Hq : Stats.summary_row cum n q = Ok (Spec.summary cum q))
      by (apply Hrows; now left).
    set (st1 := {| Stats.host := Stats.host st;
                   Stats.files :=
                     Stats.store_set (Stats.files st) (Stats.csv_name csv_out)
                       match Stats.files st (Stats.csv_name csv_out) with
                       | None => [Stats.Header; Stats.Line (Spec.summary cum q)]
                       | Some old => (old ++ [Stats.Line (Spec.summary cum q)])%list
                       end |}).
    destruct (IH (fun q' Hin => Hrows q' (or_intror Hin)) st1)
      as (st' & Hrun & Hhost & Hfile & Hother).
    exists st'. split; [| split; [| split]].
    + unfold bind at 1. unfold bind at 1. unfold lift at 1. rewrite Hq.
      exact Hrun.
    + rewrite Hhost. reflexivity.
    + rewrite Hfile. unfold st1. cbn [Stats.files].
      rewrite store_set_same. cbn [map]. apply appended_cons.
    + intros f Hf. rewrite (Hother f Hf). unfold st1. cbn [Stats.files].
      now apply store_set_other.
Qed.

(** [main] once every cell has been measured. *)
Lemma main_summary (args : Stats.Namespace) (quality_list : list Z)
      (cum : Stats.tables) (i : nat) (st st1 : Stats.state W) :
  Stats.inputs args <> [] ->
  map_res py_int (split_ws (Stats.quality args)) = Ok quality_list ->
  Stats.run_cells (Stats.encoder args) (Stats.encoder_args args)
    (Stats.keep args) (Stats.inputs args) quality_list
    (Stats.initial_tables (length (Stats.inputs args)) quality_list) st
  = (Ok (cum, i), st1) ->
  exists st2,
    Stats.main args st = (Ok tt, st2)
    /\ Stats.host st2 = Stats.host st1
    /\ Stats.files st2 (Stats.csv_name (Stats.output args))
       = Spec.appended (Stats.files st1 (Stats.csv_name (Stats.output args)))
                       (map (Spec.summary cum) quality_list).
Proof.
  intros Hne Hq Hcells.
  destruct (run_cells_filled _ _ _ _ _ _ _ _ _ _ _ _
              (initial_filled (length (Stats.inputs args)) quality_list) Hcells)
    as [Hf Hi].
  simpl in Hi. subst i.
  assert (Hn : (0 < length (Stats.inputs args))%nat)
    by (destruct (Stats.inputs args); [contradiction | simpl; lia]).
  destruct (summarise_run (Stats.output args) quality_list cum
              (length (Stats.inputs args))
              (fun q Hin => summary_row_spec quality_list _ cum q Hn Hf Hin) st1)
    as (st2 & Hrun & Hhost & Hfile & _).
  exists st2. split; [| split; assumption].
  unfold Stats.main. rewrite (bind_lift_ok _ _ _ _ Hq).
  rewrite (bind_ok _ _ _ _ _ Hcells). exact Hrun.
Qed.



End Batch.

(** ** The batch on the scripted host *)

Section OnTheScriptedHost.
Variables (file_size : Z) (probe : CompletedProcess) (report : string).
Variables (width height : Z).
Hypothesis probe_parses : CoreVideo.dimensions_of probe = Ok (width, height).

Let h : Host nat := Scripted.host file_size probe report.
Existing Instance h.

Lemma set_cell_total (tbl : list (gmap Z pynum)) (i : nat) (q : Z) (v : pynum) :
  (i < length tbl)%nat -> exists tbl', Stats.set_cell tbl i q v = Ok tbl'.
Proof.
  intros Hi. unfold Stats.set_cell.
  destruct (lookup_lt_is_Some_2 tbl i Hi) as [d ->]. now eexists.
Qed.

Lemma record_cell_total (quality_list : list Z) (n i : nat) (q : Z)
      (e_time : R) (v : DstVideo.t) (cum : Stats.tables) :
  (i < n)%nat -> Stats.tables_filled quality_list n cum ->
  exists cum', Stats.record_cell cum i q e_time v = Ok cum'.
Proof.
  intros Hi ([L1 _] & [L2 _] & [L3 _] & [L4 _] & [L5 _]).
  unfold Stats.record_cell.
  destruct (set_cell_total (Stats.cumulative_times cum) i q (PyFloat e_time))
    as [t1 ->]; [lia |].
  destruct (set_cell_total (Stats.cumulative_sizes cum) i q (PyInt (DstVideo.size v)))
    as [t2 ->]; [lia |].
  destruct (set_cell_total (Stats.cumulative_psnr cum) i q (DstVideo.psnr v))
    as [t3 ->]; [lia |].
  destruct (set_cell_total (Stats.cumulative_ssim cum) i q (DstVideo.ssim v))
    as [t4 ->]; [lia |].
  destruct (set_cell_total (Stats.cumulative_wxpsnr cum) i q (PyFloat (DstVideo.w_xpsnr v)))
    as [t5 ->]; [lia |].
  now eexists.
Qed.

Lemma core_init_scripted (pth : string) (w : nat) :
  CoreVideo.init pth w
  = (Ok {| CoreVideo.path := pth; CoreVideo.name := basename pth;
           CoreVideo.size := file_size; CoreVideo.video_width := width;
           CoreVideo.video_height := height |}, S w).
Proof.
  rewrite (core_init_run pth w w (S w) file_size probe); [| reflexivity ..].
  now rewrite probe_parses.
Qed.

Lemma dst_init_scripted (pth e_pth : string) (w : nat) :
  exists v, DstVideo.init pth e_pth w = (Ok v, S w).
Proof.
  unfold DstVideo.init, DstVideo.get_input_filesize, CoreVideo.get_video_dimensions.
  unfold bind, lift. simpl. rewrite probe_parses. now eexists.
Qed.

Lemma popen_scripted (cmd : list string) (stdin : option nat) (w : nat) :
  cmd <> [] -> Popen cmd stdin w = (Ok w, S w).
Proof. destruct cmd; [contradiction | reflexivity]. Qed.

Lemma app_nonempty {A : Type} (l1 l2 : list A) : l1 <> [] -> (l1 ++ l2)%list <> [].
Proof. destruct l1; [contradiction | discriminate]. Qed.

Ltac run_popen :=
  erewrite bind_ok;
  [| apply popen_scripted;
     first [discriminate
           | match goal with
             | |- (if ?b then _ else _) <> [] =>
                 destruct b; [apply app_nonempty |]; discriminate
             end]].

Ltac run_host := erewrite bind_ok; [| reflexivity].

Lemma encode_scripted (self : VideoEnc.t) (w : nat) :
  In (VideoEnc.encoder self) ["x264"; "dsv2"; "snow"] ->
  exists self' v w' t,
    VideoEnc.encode self w = (Ok (self', v), w') /\ VideoEnc.time self' = Some t.
Proof.
  intros Hin. unfold VideoEnc.encode, VideoEnc.commands.
  destruct Hin as [E | [E | [E | []]]]; rewrite <- E;
    cbn [String.eqb Ascii.eqb Bool.eqb negb].
  - erewrite bind_ok.
    2:{ run_popen. run_host. run_popen. run_host. run_host. reflexivity. }
    destruct (dst_init_scripted (VideoEnc.dst_pth self) (VideoEnc.dst_pth self)
                (S (S (S (S w))))) as [v Hv].
    cbn [VideoEnc.set_time VideoEnc.dst_pth].
    rewrite (bind_ok _ _ _ _ _ Hv). now eexists _, _, _, _.
  - erewrite bind_ok.
    2:{ run_popen. run_host. run_popen. run_host. run_popen. run_host. run_host.
        reflexivity. }
    destruct (dst_init_scripted (VideoEnc.dec_y4m_path self) (VideoEnc.dst_pth self)
                (S (S (S (S (S w)))))) as [v Hv].
    cbn [VideoEnc.set_time VideoEnc.dst_pth].
    rewrite (bind_ok _ _ _ _ _ Hv). now eexists _, _, _, _.
  - erewrite bind_ok.
    2:{ run_host. run_popen. run_host. run_host. reflexivity. }
    destruct (dst_init_scripted (VideoEnc.dst_pth self) (VideoEnc.dst_pth self)
                (S (S (S w)))) as [v Hv].
    cbn [VideoEnc.set_time VideoEnc.dst_pth].
    rewrite (bind_ok _ _ _ _ _ Hv). now eexists _, _, _, _.
Qed.

Lemma remove_output_scripted (self : VideoEnc.t) (w : nat) :
  VideoEnc.remove_output self w = (Ok tt, w).
Proof.
  unfold VideoEnc.remove_output. run_host.
  destruct (String.eqb (VideoEnc.encoder self) "dsv2"); [| reflexivity].
  run_host. reflexivity.
Qed.

(** A cell of the batch always completes on the scripted host. *)
Lemma run_cell_scripted (quality_list : list Z) (n i : nat)
      (enc : string) (enc_args : list string) (clean : bool)
      (s : CoreVideo.t) (cum : Stats.tables) (q : Z) (st : Stats.state nat) :
  In enc ["x264"; "dsv2"; "snow"] ->
  (i < n)%nat -> Stats.tables_filled quality_list n cum ->
  exists cum' st',
    Stats.run_cell enc enc_args clean s i cum q st = (Ok cum', st')
    /\ Stats.files st' = Stats.files st
    /\ Stats.tables_filled quality_list n cum'.
Proof.
  intros Henc Hi Hf. unfold Stats.run_cell.
  destruct (encode_scripted (VideoEnc.init s q enc enc_args None) (Stats.host st) Henc)
    as (e' & v & w1 & t & Henc' & Ht).
  erewrite bind_ok; [| unfold Stats.on_host; rewrite Henc'; reflexivity].
  cbv beta iota. rewrite Ht. erewrite bind_ok; [| reflexivity].
  destruct (calculate_psnr_ssim_run v s w1 (S w1) (S w1) w1 "" report)
    as (a & b & _ & _ & Hps); [reflexivity | reflexivity |].
  erewrite bind_ok; [| unfold Stats.on_host; cbn [Stats.host]; rewrite Hps; reflexivity].
  set (v1 := DstVideo.set_psnr_ssim v a b).
  destruct (calculate_xpsnr_run v1 s (S w1) (S (S w1)) (S (S w1)) (S w1) "" report)
    as (y & u & x & _ & Hx); [reflexivity | reflexivity |].
  erewrite bind_ok; [| unfold Stats.on_host; cbn [Stats.host]; rewrite Hx; reflexivity].
  set (v2 := DstVideo.set_xpsnr v1 y u x (Spec.derive y u x)).
  destruct (record_cell_total quality_list n i q t v2 cum Hi Hf) as [cum' Hrec].
  rewrite (bind_lift_ok _ _ _ _ Hrec).
  assert (Hf' : Stats.tables_filled quality_list n cum')
    by (eapply record_cell_filled; eassumption).
  destruct clean.
  - erewrite bind_ok;
      [| unfold Stats.on_host; cbn [Stats.host];
         rewrite remove_output_scripted; reflexivity].
    eexists _, _. split; [reflexivity |]. split; [reflexivity | exact Hf'].
  - eexists _, _. split; [reflexivity |]. split; [reflexivity | exact Hf'].
Qed.

Lemma quality_loop_scripted (quality_list ql : list Z) (n i : nat)
      (enc : string) (enc_args : list string) (clean : bool) (s : CoreVideo.t) :
  In enc ["x264"; "dsv2"; "snow"] -> (i < n)%nat ->
  forall (cum : Stats.tables) (st : Stats.state nat),
    Stats.tables_filled quality_list n cum ->
    exists cum' st',
      for_each ql cum (Stats.run_cell enc enc_args clean s i) st = (Ok cum', st')
      /\ Stats.files st' = Stats.files st
      /\ Stats.tables_filled quality_list n cum'.
Proof.
  intros Henc Hi. induction ql as [| q ql IH]; intros cum st Hf.
  - now exists cum, st.
  - destruct (run_cell_scripted quality_list n i enc enc_args clean s cum q st
                Henc Hi Hf) as (c1 & s1 & Hr & Hfs & Hf1).
    destruct (IH c1 s1 Hf1) as (c2 & s2 & Hloop & Hfs2 & Hf2).
    exists c2, s2. split; [| split; [congruence | exact Hf2]].
    simpl. now rewrite (bind_ok _ _ _ _ _ Hr).
Qed.

(** So does the whole batch; it leaves the tables filled and the reports
    as they were. *)
Lemma run_cells_scripted (quality_list : list Z) (n : nat)
      (enc : string) (enc_args : list string) (clean : bool)
      (src_pth : list string) :
  In enc ["x264"; "dsv2"; "snow"] ->
  forall (cum0 : Stats.tables) (i0 : nat) (st : Stats.state nat),
    (i0 + length src_pth <= n)%nat ->
    Stats.tables_filled quality_list n cum0 ->
    exists cum st',
      for_each src_pth (cum0, i0) (fun '(cum, i) src =>
        do s <- Stats.on_host (CoreVideo.init src);
        do cum' <- for_each quality_list cum
                     (Stats.run_cell enc enc_args clean s i);
        ret (cum', S i)) st = (Ok (cum, (i0 + length src_pth)%nat), st')
      /\ Stats.files st' = Stats.files st.
Proof.
  intros Henc. induction src_pth as [| src rest IH]; intros cum0 i0 st Hn Hf.
  - exists cum0, st. split; [| reflexivity].
    simpl. unfold ret. now rewrite Nat.add_0_r.
  - simpl in Hn. simpl for_each.
    set (s := {| CoreVideo.path := src; CoreVideo.name := basename src;
                 CoreVideo.size := file_size; CoreVideo.video_width := width;
                 CoreVideo.video_height := height |}).
    set (st1 := {| Stats.host := S (Stats.host st); Stats.files := Stats.files st |}).
    destruct (quality_loop_scripted quality_list quality_list n i0 enc enc_args
                clean s Henc ltac:(lia) cum0 st1 Hf)
      as (cum1 & st2 & Hloop & Hfs & Hf1).
    destruct (IH cum1 (S i0) st2 ltac:(lia) Hf1) as (cum2 & st3 & Hrest & Hfs3).
    exists cum2, st3. split; [| rewrite Hfs3, Hfs; reflexivity].
    erewrite bind_ok.
    2:{ erewrite bind_ok;
          [| unfold Stats.on_host; rewrite core_init_scripted; reflexivity].
        fold s. fold st1. rewrite (bind_ok _ _ _ _ _ Hloop). reflexivity. }
    cbv beta iota.
    replace (i0 + length (src :: rest))%nat with (S i0 + length rest)%nat
      by (simpl; lia).
    exact Hrest.
Qed.

(** On the scripted host the batch tool runs to its end for the three
    encoders [encode] has a branch for, and adds to the report one row per
    entry of the quality list, in the order of the list. *)
Lemma main_scripted (args : Stats.Namespace) (quality_list : list Z)
      (st : Stats.state nat) :
  In (Stats.encoder args) ["x264"; "dsv2"; "snow"] ->
  Stats.inputs args <> [] ->
  map_res py_int (split_ws (Stats.quality args)) = Ok quality_list ->
  exists rows st',
    Stats.main args st = (Ok tt, st')
    /\ map Stats.row_q rows = quality_list
    /\ Stats.files st' (Stats.csv_name (Stats.output args))
       = Spec.appended (Stats.files st (Stats.csv_name (Stats.output args))) rows.
Proof.
  intros Henc Hne Hq.
  destruct (run_cells_scripted quality_list (length (Stats.inputs args))
              (Stats.encoder args) (Stats.encoder_args args) (Stats.keep args)
              (Stats.inputs args) Henc
              (Stats.initial_tables (length (Stats.inputs args)) quality_list)
              0%nat st ltac:(lia) (initial_filled _ _))
    as (cum & st1 & Hcells & Hfs).
  destruct (main_summary args quality_list cum _ st st1 Hne Hq Hcells)
    as (st2 & Hmain & _ & Hfile).
  exists (map (Spec.summary cum) quality_list), st2.
  split; [exact Hmain |]. split.
  - rewrite map_map. cbn [Spec.summary Stats.row_q]. apply map_id.
  - now rewrite Hfile, Hfs.
Qed.

End OnTheScriptedHost.

(** The batch of [Scripted.batch_args], from a world with no report: three
    rows, for 40, 20 and 30 in that order, under a new header. *)
Example main_scripted_example :
  exists rows st',
    Stats.main (H := Scripted.host 1000 (Scripted.probe_ok "1920x1080")
                       Scripted.xpsnr_report)
               Scripted.batch_args Scripted.fresh = (Ok tt, st')
    /\ map Stats.row_q rows = [40; 20; 30]
    /\ Stats.files st' "report.csv"
       = Some (Stats.Header :: map Stats.Line rows).
Proof.
  destruct (main_scripted 1000 (Scripted.probe_ok "1920x1080")
              Scripted.xpsnr_report 1920 1080 eq_refl
              Scripted.batch_args [40; 20; 30] Scripted.fresh)
    as (rows & st' & Hmain & Hq & Hfile).
  - simpl. tauto.
  - discriminate.
  - reflexivity.
  - exists rows, st'. split; [exact Hmain |]. split; [exact Hq |].
    change (Stats.csv_name (Stats.output Scripted.batch_args)) with "report.csv"
      in Hfile.
    rewrite Hfile. destruct rows as [| r rows]; [discriminate Hq | reflexivity].
Qed.









(* ------------------------------------------------------------------ *)
(** * Further properties of the code *)

(** ** Scores and what the metric steps leave *)

Section Scores.
Local Open Scope R_scope.












End Scores.

Section Captured.

Lemma digit_val_nonneg (c : ascii) : is_digit c = true -> 0 <= digit_val c.
Proof.
  unfold is_digit, digit_val. intros [Hlo _]%andb_prop.
  apply Nat.leb_le in Hlo. lia.
Qed.

Lemma digits_val_nonneg (s : string) (acc : Z) :
  all_digits s = true -> 0 <= acc -> 0 <= digits_val acc s.
Proof.
  revert acc. induction s as [| c s IH]; intros acc Hd Hacc; simpl in *.
  - exact Hacc.
  - apply andb_prop in Hd as [Hc Hs]. apply IH; [exact Hs |].
    pose proof (digit_val_nonneg c Hc). lia.
Qed.

Lemma decimal_parts_digits_inv (x a b : string) :
  decimal_parts x = Some (a, b) -> all_digits a = true /\ all_digits b = true.
Proof.
  unfold decimal_parts.
  destruct (split_on "." x) as [| a' [| b' [| ? ?]]]; try discriminate.
  destruct (negb (String.eqb a' "") && negb (String.eqb b' "")
            && all_digits a' && all_digits b') eqn:E; [| discriminate].
  intros [= <- <-].
  apply andb_prop in E as [E Hb]. apply andb_prop in E as [_ Ha]. now split.
Qed.

(** No pattern captures a sign: what [float] is given is never negative. *)
Lemma py_float_nonneg (x : string) (f : R) : py_float x = Ok f -> (0 <= f)%R.
Proof.
  unfold py_float. destruct (decimal_parts x) as [[a b] |] eqn:E; [| discriminate].
  apply decimal_parts_digits_inv in E as [Ha Hb]. intros [= <-].
  pose proof (digits_val_nonneg a 0 Ha ltac:(lia)) as Na.
  pose proof (digits_val_nonneg b 0 Hb ltac:(lia)) as Nb.
  apply IZR_le in Na, Nb.
  assert (0 < IZR (10 ^ Z.of_nat (String.length b)))%R
    by (apply IZR_lt; apply Z.pow_pos_nonneg; lia).
  assert (0 <= IZR (digits_val 0 b) / IZR (10 ^ Z.of_nat (String.length b)))%R.
  { apply Rmult_le_pos; [exact Nb | left; now apply Rinv_0_lt_compat]. }
  lra.
Qed.

Lemma score_or_zero_nonneg (m : option (list string)) (n : pynum) :
  DstVideo.score_or_zero m = Ok n -> (0 <= num_val n)%R.
Proof.
  destruct m as [g |]; simpl.
  - intros (x & _ & Hr)%rbind_inv_ok.
    apply rbind_inv_ok in Hr as (f & Hf & [= <-]).
    simpl. now apply py_float_nonneg in Hf.
  - intros [= <-]. simpl. lra.
Qed.


Context {W : Type} `{Host W}.


(** X5.  When [calculate_psnr_ssim] returns, it has changed [psnr] and
    [ssim] only, and neither is negative. *)
Theorem calculate_psnr_ssim_leaves (self v' : DstVideo.t) (src : CoreVideo.t)
        (w w' : W) :
  DstVideo.calculate_psnr_ssim self src w = (Ok v', w') ->
  v' = DstVideo.set_psnr_ssim self (DstVideo.psnr v') (DstVideo.ssim v')
  /\ (0 <= num_val (DstVideo.psnr v'))%R
  /\ (0 <= num_val (DstVideo.ssim v'))%R.
Proof.
  unfold DstVideo.calculate_psnr_ssim.
  intros (p & w1 & _ & Hr)%bind_inv_ok.
  apply bind_inv_ok in Hr as ([out err] & w2 & _ & Hr).
  apply bind_inv_ok in Hr as (a & w3 & [Ha _]%lift_inv_ok & Hr).
  apply bind_inv_ok in Hr as (b & w4 & [Hb _]%lift_inv_ok & Hr).
  unfold ret in Hr. injection Hr as <- _.
  apply score_or_zero_nonneg in Ha, Hb.
  split; [reflexivity | now split].
Qed.

End Captured.


Lemma calculate_psnr_ssim_leaves_witness :
  exists v',
    DstVideo.calculate_psnr_ssim
      (H := Scripted.host 1000 (Scripted.probe_ok "1920x1080")
              Scripted.psnr_ssim_report)
      Scripted.encoded Scripted.clip 0%nat = (Ok v', 1%nat)
    /\ v' = DstVideo.set_psnr_ssim Scripted.encoded (DstVideo.psnr v')
              (DstVideo.ssim v')
    /\ (0 <= num_val (DstVideo.psnr v'))%R
    /\ (0 <= num_val (DstVideo.ssim v'))%R.
Proof.
  destruct (calculate_psnr_ssim_run
              (H := Scripted.host 1000 (Scripted.probe_ok "1920x1080")
                      Scripted.psnr_ssim_report)
              Scripted.encoded Scripted.clip 0%nat 1%nat 1%nat 0%nat ""
              Scripted.psnr_ssim_report eq_refl eq_refl)
    as (a & b & _ & _ & Hrun).
  eexists. split; [exact Hrun |].
  exact (calculate_psnr_ssim_leaves _ _ _ _ _ Hrun).
Defined.

(** ** The tables and the name of a report *)

Section Cells.

(** X6.  Writing a cell of a table succeeds exactly for a video the table
    has; the cell then reads back as written, every other cell reads as
    before, and the table keeps its length.  Beyond the last video the
    write raises [IndexError]. *)
Theorem set_cell_get_cell (tbl : list (gmap Z pynum)) (i : nat) (q : Z) (v : pynum) :
  match Stats.set_cell tbl i q v with
  | Ok tbl' =>
      (i < length tbl)%nat
      /\ length tbl' = length tbl
      /\ Stats.get_cell tbl' q i = Ok v
      /\ (forall j q', (j <> i \/ q' <> q) ->
            Stats.get_cell tbl' q' j = Stats.get_cell tbl q' j)
  | Raise e => e = IndexError /\ (length tbl <= i)%nat
  end.
Proof.
  unfold Stats.set_cell. destruct (tbl !! i) as [d |] eqn:Hd.
  - pose proof (lookup_lt_Some _ _ _ Hd) as Hi.
    split; [exact Hi |]. split; [apply length_insert |]. split.
    + unfold Stats.get_cell. rewrite list_lookup_insert_eq by exact Hi.
      now rewrite lookup_insert_eq.
    + intros j q' Hne. unfold Stats.get_cell.
      destruct (decide (j = i)) as [-> | Hji].
      * rewrite list_lookup_insert_eq by exact Hi. rewrite Hd.
        destruct Hne as [Hne | Hne]; [contradiction |].
        now rewrite lookup_insert_ne by congruence.
      * now rewrite list_lookup_insert_ne by congruence.
  - split; [reflexivity |]. now apply lookup_ge_None.
Qed.

Lemma dict_of_lookup (quality_list : list Z) (v : pynum) (q : Z) :
  Stats.dict_of quality_list v !! q
  = if existsb (Z.eqb q) quality_list then Some v else None.
Proof.
  unfold Stats.dict_of.
  assert (G : forall d : gmap Z pynum,
             fold_left (fun d q => <[q := v]> d) quality_list d !! q
             = if existsb (Z.eqb q) quality_list then Some v else d !! q).
  { induction quality_list as [| x l IH]; intros d; simpl; [reflexivity |].
    rewrite IH. destruct (existsb (Z.eqb q) l).
    - now rewrite orb_true_r.
    - rewrite orb_false_r. destruct (Z.eqb_spec q x) as [-> | N].
      + now rewrite lookup_insert_eq.
      + now rewrite lookup_insert_ne by congruence. }
  rewrite G. now rewrite lookup_empty.
Qed.

Lemma initial_cell (n : nat) (quality_list : list Z) (v : pynum) (q : Z) (j : nat) :
  Stats.get_cell (replicate n (Stats.dict_of quality_list v)) q j
  = if (j <? n)%nat
    then (if existsb (Z.eqb q) quality_list then Ok v else Raise KeyError)
    else Raise IndexError.
Proof.
  unfold Stats.get_cell. destruct (Nat.ltb_spec j n) as [Hj | Hj].
  - rewrite lookup_replicate_2 by exact Hj. rewrite dict_of_lookup.
    now destruct (existsb (Z.eqb q) quality_list).
  - rewrite (proj1 (lookup_replicate_None n _ j) Hj). reflexivity.
Qed.

(** X7.  In the tables as they are set up, a cell of one of the videos and
    of a quality of the list reads zero (the [int] 0 for sizes, 0.0 for the
    others); a quality that is not in the list is a [KeyError], a video
    beyond the last an [IndexError]. *)
Theorem initial_tables_cells (n : nat) (quality_list : list Z) (q : Z) (j : nat) :
  let cum := Stats.initial_tables n quality_list in
  let cell zero :=
    if (j <? n)%nat
    then (if existsb (Z.eqb q) quality_list then Ok zero else Raise KeyError)
    else Raise IndexError in
  Stats.get_cell (Stats.cumulative_sizes cum) q j = cell (PyInt 0)
  /\ Stats.get_cell (Stats.cumulative_times cum) q j = cell (PyFloat 0)
  /\ Stats.get_cell (Stats.cumulative_psnr cum) q j = cell (PyFloat 0)
  /\ Stats.get_cell (Stats.cumulative_ssim cum) q j = cell (PyFloat 0)
  /\ Stats.get_cell (Stats.cumulative_wxpsnr cum) q j = cell (PyFloat 0).
Proof.
  cbv zeta. unfold Stats.initial_tables.
  cbn [Stats.cumulative_sizes Stats.cumulative_times Stats.cumulative_psnr
       Stats.cumulative_ssim Stats.cumulative_wxpsnr].
  repeat split; apply initial_cell.
Qed.

End Cells.

Section Reports.

Lemma substring_all (s : string) : String.substring 0 (String.length s) s = s.
Proof. induction s as [| c s IH]; simpl; [reflexivity | now rewrite IH]. Qed.

Lemma substring_skip (a s : string) :
  String.substring (String.length a) (String.length s) (a ++ s) = s.
Proof.
  induction a as [| c a IH]; [apply substring_all |].
  rewrite append_cons. simpl. exact IH.
Qed.

Lemma length_append (a s : string) :
  String.length (a ++ s) = (String.length a + String.length s)%nat.
Proof.
  induction a as [| c a IH]; [reflexivity |].
  rewrite append_cons. simpl. now rewrite IH.
Qed.

Lemma endswith_append (a s : string) : endswith (a ++ s) s = true.
Proof.
  unfold endswith. rewrite length_append.
  replace (String.length a + String.length s - String.length s)%nat
    with (String.length a) by lia.
  rewrite substring_skip, String.eqb_refl.
  rewrite andb_true_r. apply Nat.leb_le. lia.
Qed.

(** X8.  The name of a report always ends in [.csv], naming is idempotent,
    and a name and that name with [.csv] added are the same report unless
    the name has the ending already. *)
Theorem csv_name_ending (name : string) :
  endswith (Stats.csv_name name) ".csv" = true
  /\ Stats.csv_name (Stats.csv_name name) = Stats.csv_name name
  /\ (endswith name ".csv" = false ->
      Stats.csv_name (name ++ ".csv") = Stats.csv_name name).
Proof.
  assert (E : endswith (Stats.csv_name name) ".csv" = true).
  { unfold Stats.csv_name. destruct (endswith name ".csv") eqn:En;
      [exact En | apply endswith_append]. }
  split; [exact E |]. split.
  - unfold Stats.csv_name at 1. now rewrite E.
  - intros En. unfold Stats.csv_name. now rewrite endswith_append, En.
Qed.

End Reports.

(** ** What the batch and an encode leave behind *)

Section ReportsKept.
Context {W : Type} `{Host W}.

Lemma on_host_files {A : Type} (m : M W A) (st st' : Stats.state W) (r : res A) :
  Stats.on_host m st = (r, st') -> Stats.files st' = Stats.files st.
Proof.
  unfold Stats.on_host. destruct (m (Stats.host st)) as [r0 w'].
  now intros [= _ <-].
Qed.

Lemma lift_files {A : Type} (x : res A) (st st' : Stats.state W) (r : res A) :
  lift x st = (r, st') -> Stats.files st' = Stats.files st.
Proof. unfold lift. now intros [= _ <-]. Qed.

Lemma bind_files {A B : Type} (m : M (Stats.state W) A)
      (k : A -> M (Stats.state W) B) :
  (forall st r st', m st = (r, st') -> Stats.files st' = Stats.files st) ->
  (forall a st r st', k a st = (r, st') -> Stats.files st' = Stats.files st) ->
  forall st r st', bind m k st = (r, st') -> Stats.files st' = Stats.files st.
Proof.
  intros Hm Hk st r st'. unfold bind.
  destruct (m st) as [[a | e] s1] eqn:Em.
  - intros Ek. rewrite (Hk _ _ _ _ Ek). eapply Hm, Em.
  - intros [= _ <-]. eapply Hm, Em.
Qed.

Lemma for_each_files {A B : Type} (body : B -> A -> M (Stats.state W) B)
      (xs : list A) :
  (forall acc x st r st', body acc x st = (r, st') ->
                          Stats.files st' = Stats.files st) ->
  forall acc st r st',
    for_each xs acc body st = (r, st') -> Stats.files st' = Stats.files st.
Proof.
  intros Hbody. induction xs as [| x xs IH]; intros acc st r st'.
  - simpl. unfold ret. now intros [= _ <-].
  - simpl. apply bind_files; [apply Hbody | intros a; apply IH].
Qed.

Lemma run_cell_files (enc : string) (enc_args : list string) (clean : bool)
      (s : CoreVideo.t) (i : nat) (cum : Stats.tables) (q : Z)
      (st : Stats.state W) (r : res Stats.tables) (st' : Stats.state W) :
  Stats.run_cell enc enc_args clean s i cum q st = (r, st') ->
  Stats.files st' = Stats.files st.
Proof.
  unfold Stats.run_cell. revert st r st'.
  apply bind_files; [intros ? ? ?; apply on_host_files |]. intros [e' v].
  apply bind_files; [intros ? ? ?; apply lift_files |]. intros e_time.
  apply bind_files; [intros ? ? ?; apply on_host_files |]. intros v1.
  apply bind_files; [intros ? ? ?; apply on_host_files |]. intros v2.
  apply bind_files; [intros ? ? ?; apply lift_files |]. intros cum'.
  destruct clean.
  - apply bind_files; [intros ? ? ?; apply on_host_files |]. intros _.
    intros st r st'. unfold ret. now intros [= _ <-].
  - intros st r st'. unfold ret. now intros [= _ <-].
Qed.

(** Measuring the cells never touches a report. *)
Lemma run_cells_files (enc : string) (enc_args : list string) (clean : bool)
      (src_pth : list string) (quality_list : list Z) (cum0 : Stats.tables)
      (st : Stats.state W) (r : res (Stats.tables * nat)) (st' : Stats.state W) :
  Stats.run_cells enc enc_args clean src_pth quality_list cum0 st = (r, st') ->
  Stats.files st' = Stats.files st.
Proof.
  unfold Stats.run_cells. apply for_each_files.
  intros [cum i] src. apply bind_files; [intros ? ? ?; apply on_host_files |].
  intros s. apply bind_files.
  - apply for_each_files. intros acc x. apply run_cell_files.
  - intros cum' st0 r0 st0'. unfold ret. now intros [= _ <-].
Qed.

Lemma summary_row_no_video (cum : Stats.tables) (q : Z) :
  Stats.summary_row cum 0 q = Raise ZeroDivisionError.
Proof.
  unfold Stats.summary_row, Stats.average. simpl.
  unfold py_truediv, py_sum. simpl. now rewrite fdiv_zero.
Qed.

End ReportsKept.

(** X9.  The batch tool writes its report last and whole: when [main]
    raises, whether on the quality list, on a probe, in an encode or for
    want of any video, every report is as it was before; when it returns,
    no report but its own has changed. *)
Theorem main_report_whole {W : Type} `{Host W} (args : Stats.Namespace)
        (st : Stats.state W) :
  match Stats.main args st with
  | (Raise _, st') => Stats.files st' = Stats.files st
  | (Ok _, st') =>
      forall f, String.eqb f (Stats.csv_name (Stats.output args)) = false ->
                Stats.files st' f = Stats.files st f
  end.
Proof.
  unfold Stats.main.
  destruct (map_res py_int (split_ws (Stats.quality args))) as [ql | e] eqn:Hq;
    [| reflexivity].
  unfold bind at 1. unfold lift at 1. unfold bind at 1.
  destruct (Stats.run_cells (Stats.encoder args) (Stats.encoder_args args)
              (Stats.keep args) (Stats.inputs args) ql
              (Stats.initial_tables (length (Stats.inputs args)) ql) st)
    as [[[cum i] | e] st1] eqn:Hcells.
  - pose proof (run_cells_files _ _ _ _ _ _ _ _ _ Hcells) as Hfiles.
    destruct (run_cells_filled _ _ _ _ _ _ _ _ _ _ _ _
                (initial_filled (length (Stats.inputs args)) ql) Hcells)
      as [Hf Hi].
    simpl in Hi. subst i.
    destruct (Stats.inputs args) as [| src rest] eqn:Hin.
    + destruct ql as [| q l].
      * simpl. intros f _. now rewrite Hfiles.
      * unfold Stats.summarise. simpl for_each. unfold bind at 1. unfold bind at 1.
        unfold lift at 1. rewrite summary_row_no_video. exact Hfiles.
    + assert (Hn : (0 < length (src :: rest))%nat) by (simpl; lia).
      destruct (summarise_run (Stats.output args) ql cum (length (src :: rest))
                  (fun q Hq' => summary_row_spec ql _ cum q Hn Hf Hq')
                  st1) as (st2 & -> & _ & _ & Hother).
      intros f Hf'. rewrite Hother; [now rewrite Hfiles |].
      now apply String.eqb_neq.
  - exact (run_cells_files _ _ _ _ _ _ _ _ _ Hcells).
Qed.

Section EncodeReturns.
Context {W : Type} `{Host W}.

Ltac skip Hr := apply bind_inv_ok in Hr as (? & ? & _ & Hr).

Lemma dst_init_fresh (pth e_pth : string) (w w' : W) (v : DstVideo.t) :
  DstVideo.init pth e_pth w = (Ok v, w') ->
  exists sz wd ht,
    v = {| DstVideo.path := pth; DstVideo.enc_path := e_pth;
           DstVideo.name := basename pth; DstVideo.size := sz;
           DstVideo.video_width := wd; DstVideo.video_height := ht;
           DstVideo.xpsnr_y := 0; DstVideo.xpsnr_u := 0; DstVideo.xpsnr_v := 0;
           DstVideo.w_xpsnr := 0;
           DstVideo.psnr := PyFloat 0; DstVideo.ssim := PyFloat 0 |}.
Proof.
  unfold DstVideo.init.
  intros (sz & w1 & _ & Hr)%bind_inv_ok.
  apply bind_inv_ok in Hr as ([wd ht] & w2 & _ & Hr).
  unfold ret in Hr. injection Hr as <- _. now exists sz, wd, ht.
Qed.

(** [encode] changes nothing of the job but its [time]. *)
Lemma encode_sets_time (self self' : VideoEnc.t) (v : DstVideo.t) (w w' : W) :
  VideoEnc.encode self w = (Ok (self', v), w') ->
  exists t pth w1,
    self' = VideoEnc.set_time self t
    /\ DstVideo.init pth (VideoEnc.dst_pth self) w1 = (Ok v, w').
Proof.
  unfold VideoEnc.encode. destruct (VideoEnc.commands self) as [[ff enc] dec].
  intros ([s1 d1] & w1 & Hr & Hv)%bind_inv_ok.
  apply bind_inv_ok in Hv as (v0 & w2 & Hv & Hret).
  unfold ret in Hret. injection Hret as <- <- <-.
  destruct (String.eqb (VideoEnc.encoder self) "dsv2");
    [| destruct (negb (String.eqb (VideoEnc.encoder self) "snow"))].
  - do 7 skip Hr. unfold ret in Hr. injection Hr as <- <- <-.
    eexists _, _, _. split; [reflexivity | exact Hv].
  - do 5 skip Hr. unfold ret in Hr. injection Hr as <- <- <-.
    eexists _, _, _. split; [reflexivity | exact Hv].
  - do 4 skip Hr. unfold ret in Hr. injection Hr as <- <- <-.
    eexists _, _, _. split; [reflexivity | exact Hv].
Qed.

End EncodeReturns.

(** X10.  When [encode] returns, the encoder is x264, dsv2 or snow; the job
    is as it was but for its [time], which is set; and the [DstVideo] is
    new: its encoded path is the job's destination, its path is the decoded
    file for dsv2 and the destination otherwise, its name is the last
    segment of its path, and its six scores are 0.0. *)
Theorem encode_leaves {W : Type} `{Host W} (self self' : VideoEnc.t)
        (v : DstVideo.t) (w w' : W) :
  VideoEnc.encode self w = (Ok (self', v), w') ->
  In (VideoEnc.encoder self) ["x264"; "dsv2"; "snow"]
  /\ (exists t, self' = VideoEnc.set_time self t)
  /\ DstVideo.enc_path v = VideoEnc.dst_pth self
  /\ DstVideo.path v
     = (if String.eqb (VideoEnc.encoder self) "dsv2"
        then VideoEnc.dec_y4m_path self else VideoEnc.dst_pth self)
  /\ DstVideo.name v = basename (DstVideo.path v)
  /\ (DstVideo.xpsnr_y v = 0 /\ DstVideo.xpsnr_u v = 0 /\ DstVideo.xpsnr_v v = 0
      /\ DstVideo.w_xpsnr v = 0)%R
  /\ DstVideo.psnr v = PyFloat 0 /\ DstVideo.ssim v = PyFloat 0.
Proof.
  intros Henc.
  destruct (encode_result_paths _ _ _ _ _ Henc) as [Hep Hpath].
  destruct (encode_sets_time _ _ _ _ _ Henc) as (t & pth & w1 & Hs & Hinit).
  destruct (dst_init_fresh _ _ _ _ _ Hinit) as (sz & wd & ht & Hv).
  split.
  { destruct Hpath as [[E _] | [[E | E] _]]; rewrite E; simpl; tauto. }
  split; [now exists t |]. split; [exact Hep |]. split.
  { destruct Hpath as [[E P] | [[E | E] P]]; rewrite E, P; reflexivity. }
  rewrite Hv. simpl. repeat split.
Qed.

Lemma encode_leaves_witness :
  let h := Scripted.host 1000 (Scripted.probe_ok "1920x1080") "" in
  let self := VideoEnc.init Scripted.clip 23 "dsv2" [] None in
  exists self' v w',
    VideoEnc.encode (H := h) self 0%nat = (Ok (self', v), w')
    /\ In (VideoEnc.encoder self) ["x264"; "dsv2"; "snow"]
    /\ (exists t, self' = VideoEnc.set_time self t)
    /\ DstVideo.enc_path v = VideoEnc.dst_pth self
    /\ DstVideo.path v
       = (if String.eqb (VideoEnc.encoder self) "dsv2"
          then VideoEnc.dec_y4m_path self else VideoEnc.dst_pth self)
    /\ DstVideo.name v = basename (DstVideo.path v)
    /\ (DstVideo.xpsnr_y v = 0 /\ DstVideo.xpsnr_u v = 0 /\ DstVideo.xpsnr_v v = 0
        /\ DstVideo.w_xpsnr v = 0)%R
    /\ DstVideo.psnr v = PyFloat 0 /\ DstVideo.ssim v = PyFloat 0.
Proof.
  intros h self.
  destruct encode_dsv2_scripted as (self' & v & w' & Henc & _).
  exists self', v, w'. split; [exact Henc |].
  exact (encode_leaves (H := h) self self' v 0%nat w' Henc).
Defined.

(** ** Derived paths *)

Section Lacking.

Lemma lacks_append (c : ascii) (a b : string) :
  lacks c (a ++ b) = lacks c a && lacks c b.
Proof.
  induction a as [| x a IH]; [reflexivity |].
  rewrite append_cons. simpl. rewrite IH. now rewrite andb_assoc.
Qed.

Lemma lacks_uint (c : ascii) (d : Decimal.uint) :
  is_digit c = false -> lacks c (NilEmpty.string_of_uint d) = true.
Proof.
  intros Hc.
  induction d; cbn [NilEmpty.string_of_uint lacks]; try reflexivity;
    rewrite IHd, andb_true_r; apply negb_true_iff, Ascii.eqb_neq;
    intros <-; discriminate Hc.
Qed.

(** The decimal spelling of an [int] holds digits and at most a sign. *)
Lemma lacks_py_str (c : ascii) (n : Z) :
  is_digit c = false -> Ascii.eqb c "-" = false -> lacks c (py_str n) = true.
Proof.
  intros Hc Hm. unfold py_str, NilZero.string_of_int, NilZero.string_of_uint.
  assert (H0 : lacks c "0" = true).
  { cbn [lacks]. rewrite andb_true_r. apply negb_true_iff, Ascii.eqb_neq.
    intros <-. discriminate Hc. }
  destruct (Z.to_int n) as [d | d].
  - destruct d; try exact H0; apply (lacks_uint c _ Hc).
  - cbn [lacks]. rewrite Ascii.eqb_sym, Hm. cbn [negb andb].
    destruct d; try exact H0; apply (lacks_uint c _ Hc).
Qed.

Lemma basename_from_lacks (cur p : string) :
  lacks "/" p = true -> basename_from cur p = cur ++ p.
Proof.
  revert cur. induction p as [| c p IH]; intros cur Hl; simpl.
  - now rewrite append_nil_r.
  - simpl in Hl. apply andb_prop in Hl as [Hc Hp].
    apply negb_true_iff in Hc. rewrite Hc, (IH _ Hp).
    rewrite append_assoc. reflexivity.
Qed.

Lemma basename_lacks (p : string) : lacks "/" p = true -> basename p = p.
Proof. intros Hl. unfold basename. now rewrite basename_from_lacks. Qed.

Lemma lacks_basename_from (cur p : string) :
  lacks "/" cur = true -> lacks "/" (basename_from cur p) = true.
Proof.
  revert cur. induction p as [| c p IH]; intros cur Hl; simpl; [exact Hl |].
  destruct (Ascii.eqb_spec c "/") as [-> | N].
  - now apply IH.
  - apply IH. rewrite lacks_append, Hl. simpl.
    apply Ascii.eqb_neq in N. now rewrite N.
Qed.

(** A last path segment holds no slash. *)
Lemma lacks_basename (p : string) : lacks "/" (basename p) = true.
Proof. unfold basename. now apply lacks_basename_from. Qed.

Lemma dirname_from_lacks (seen cur p : string) :
  lacks "/" p = true -> dirname_from seen cur p = seen.
Proof.
  revert cur. induction p as [| c p IH]; intros cur Hl; simpl; [reflexivity |].
  simpl in Hl. apply andb_prop in Hl as [Hc Hp].
  apply negb_true_iff in Hc. rewrite Hc. now apply IH.
Qed.

(** An extension is empty or begins with its dot. *)
Lemma splitext_name_ext (lead : bool) (s : string) :
  snd (splitext_name lead s) = ""
  \/ exists e, snd (splitext_name lead s) = String "." e.
Proof.
  revert lead. induction s as [| c s IH]; intros lead; simpl; [now left |].
  specialize (IH (lead && Ascii.eqb c ".")).
  destruct (splitext_name (lead && Ascii.eqb c ".") s) as [r e]. simpl in IH.
  destruct e as [| x e].
  - destruct (Ascii.eqb_spec c ".") as [-> | N]; simpl.
    + destruct lead; simpl; [now left | right; now exists s].
    + now left.
  - simpl. exact IH.
Qed.

Lemma splitext_ext (p : string) :
  snd (splitext p) = "" \/ exists e, snd (splitext p) = String "." e.
Proof.
  unfold splitext.
  pose proof (splitext_name_ext true (basename p)) as Hs.
  now destruct (splitext_name true (basename p)) as [r e].
Qed.

Lemma append_cancel_l (a b c : string) : a ++ b = a ++ c -> b = c.
Proof.
  induction a as [| x a IH]; [easy |].
  rewrite !append_cons. intros [= E]. now apply IH.
Qed.

(** Without a dot there is no extension. *)
Lemma splitext_name_no_dot (lead : bool) (s : string) :
  lacks "." s = true -> splitext_name lead s = (s, "").
Proof.
  revert lead. induction s as [| c s IH]; intros lead Hl; simpl; [reflexivity |].
  simpl in Hl. apply andb_prop in Hl as [Hc Hs].
  rewrite (IH _ Hs). apply negb_true_iff in Hc. now rewrite Hc.
Qed.

(** A name that is not all dots splits at its last dot. *)
Lemma splitext_name_last_dot (lead : bool) (a e : string) :
  lacks "." e = true ->
  (lead = false \/ exists x y c, a = x ++ String c y /\ Ascii.eqb c "." = false) ->
  splitext_name lead (a ++ String "." e) = (a, String "." e).
Proof.
  intros He. revert lead. induction a as [| c a IH]; intros lead Hlead.
  - destruct Hlead as [-> | (x & y & c & Ha & _)].
    + rewrite append_nil_l. simpl. now rewrite (splitext_name_no_dot _ e He).
    + destruct x; discriminate Ha.
  - rewrite append_cons. simpl.
    rewrite IH.
    + reflexivity.
    + destruct (Ascii.eqb_spec c ".") as [-> | N].
      * destruct Hlead as [-> | (x & y & c' & Ha & Hc')]; [now left |].
        rewrite andb_true_r. destruct lead; [| now left]. right.
        destruct x as [| x0 x].
        -- rewrite append_nil_l in Ha. injection Ha as <- _. discriminate Hc'.
        -- rewrite append_cons in Ha. injection Ha as _ ->. now exists x, y, c'.
      * left. now rewrite andb_false_r.
Qed.

Lemma dec_y4m_differs (self : VideoEnc.t) :
  String.eqb (VideoEnc.dec_y4m_path self) (VideoEnc.dst_pth self) = false.
Proof.
  pose proof (splitext_join (VideoEnc.dst_pth self)) as Hj.
  pose proof (splitext_ext (VideoEnc.dst_pth self)) as He.
  apply String.eqb_neq. unfold VideoEnc.dec_y4m_path. rewrite <- Hj at 2.
  intros E%append_cancel_l.
  destruct He as [He | [e He]]; rewrite He in E; discriminate E.
Qed.

End Lacking.

Section Siblings.


Lemma derived_root (stem enc num ext : string) :
  lacks "/" stem = true -> lacks "/" enc = true -> lacks "/" num = true ->
  lacks "/" ext = true -> lacks "." ext = true ->
  splitext (stem ++ "_" ++ enc ++ "_q" ++ num ++ "." ++ ext)
  = (stem ++ "_" ++ enc ++ "_q" ++ num, String "." ext).
Proof.
  intros Hs He Hn Hx Hd.
  set (a := stem ++ "_" ++ enc ++ "_q" ++ num).
  assert (Ea : stem ++ "_" ++ enc ++ "_q" ++ num ++ "." ++ ext = a ++ String "." ext).
  { unfold a. now rewrite !append_assoc. }
  rewrite Ea.
  assert (Hl : lacks "/" (a ++ String "." ext) = true).
  { unfold a. rewrite !lacks_append, Hs, He, Hn. simpl. now rewrite Hx. }
  unfold splitext. rewrite (basename_lacks _ Hl).
  rewrite (dirname_from_lacks _ _ _ Hl).
  rewrite (splitext_name_last_dot true a ext Hd); [reflexivity |].
  right. exists stem, (enc ++ "_q" ++ num), "_"%char. split; [| reflexivity].
  unfold a. reflexivity.
Qed.

Lemma lacks_choice (encoder : string) :
  In encoder Encode.choices -> lacks "/" encoder = true.
Proof.
  intros [<- | [<- | [<- | [<- | []]]]]; reflexivity.
Qed.

Lemma lacks_get_ext (encoder : string) :
  lacks "/" (VideoEnc.get_ext encoder) = true
  /\ lacks "." (VideoEnc.get_ext encoder) = true.
Proof.
  unfold VideoEnc.get_ext.
  destruct (String.eqb encoder "dirac"); [now split |].
  destruct (String.eqb encoder "snow"); [now split |].
  destruct (String.eqb encoder "x264"); now split.
Qed.

Lemma lacks_stem (name : string) :
  lacks "/" name = true -> lacks "/" (fst (splitext name)) = true.
Proof.
  intros Hl. pose proof (splitext_join name) as Hj.
  rewrite <- Hj in Hl. rewrite lacks_append in Hl.
  now apply andb_prop in Hl as [Hl _].
Qed.

(** X12.  A derived destination is a bare file name: whatever directory the
    source is in, the output of the four encoders is written to the
    working directory. *)
Theorem bare_derived_name (src : CoreVideo.t) (q : Z) (encoder : string)
        (encoder_args : list string) (dst_pth : option string) :
  CoreVideo.name src = basename (CoreVideo.path src) ->
  In encoder Encode.choices ->
  VideoEnc.not_given dst_pth = true ->
  let dst := VideoEnc.dst_pth (VideoEnc.init src q encoder encoder_args dst_pth) in
  lacks "/" dst = true /\ basename dst = dst.
Proof.
  intros Hname Henc Hng dst.
  assert (Hs : lacks "/" (fst (splitext (CoreVideo.name src))) = true).
  { apply lacks_stem. rewrite Hname. apply lacks_basename. }
  assert (Hl : lacks "/" dst = true).
  { unfold dst, VideoEnc.init. rewrite Hng. cbn [VideoEnc.dst_pth].
    rewrite !lacks_append, Hs.
    rewrite (lacks_choice _ Henc), (lacks_py_str "/" q eq_refl eq_refl).
    now rewrite (proj1 (lacks_get_ext encoder)). }
  split; [exact Hl | now apply basename_lacks].
Qed.

Lemma bare_derived_name_witness :
  let src := {| CoreVideo.path := "/data/in/clip.mp4"; CoreVideo.name := "clip.mp4";
                CoreVideo.size := 1000; CoreVideo.video_width := 1920;
                CoreVideo.video_height := 1080 |} in
  let dst := VideoEnc.dst_pth (VideoEnc.init src 23 "x264" [] None) in
  lacks "/" dst = true /\ basename dst = dst.
Proof.
  intros src.
  apply (bare_derived_name src 23 "x264" [] None);
    [reflexivity | simpl; tauto | reflexivity].
Defined.

(** X13.  A dsv2 job with a derived destination encodes to
    [<stem>_dsv2_q<q>.dsv] and decodes back to
    [<stem>_dsv2_q<q>_decoded.y4m], the path its result is compared
    through. *)
Theorem dsv2_derived_paths (src : CoreVideo.t) (q : Z)
        (encoder_args : list string) (dst_pth : option string) :
  CoreVideo.name src = basename (CoreVideo.path src) ->
  VideoEnc.not_given dst_pth = true ->
  let self := VideoEnc.init src q "dsv2" encoder_args dst_pth in
  let stem := fst (splitext (CoreVideo.name src)) in
  VideoEnc.dst_pth self = stem ++ "_dsv2_q" ++ py_str q ++ ".dsv"
  /\ VideoEnc.dec_y4m_path self = stem ++ "_dsv2_q" ++ py_str q ++ "_decoded.y4m"
  /\ (exists ff enc, VideoEnc.commands self = (ff, enc, VideoEnc.dec_y4m_path self)).
Proof.
  intros Hname Hng self stem.
  assert (Ed : VideoEnc.dst_pth self
               = stem ++ "_" ++ "dsv2" ++ "_q" ++ py_str q ++ "." ++ "dsv").
  { unfold self, VideoEnc.init. rewrite Hng. reflexivity. }
  split; [exact Ed |]. split.
  - unfold VideoEnc.dec_y4m_path. rewrite Ed.
    rewrite derived_root; try reflexivity.
    + cbn [fst]. now rewrite !append_assoc.
    + apply lacks_stem. rewrite Hname. apply lacks_basename.
    + now apply lacks_py_str.
  - unfold VideoEnc.commands. cbn [VideoEnc.encoder self VideoEnc.init].
    change (VideoEnc.encoder self) with "dsv2".
    cbn [String.eqb Ascii.eqb Bool.eqb]. now eexists _, _.
Qed.

Lemma dsv2_derived_paths_witness :
  let self := VideoEnc.init Scripted.clip 23 "dsv2" [] None in
  let stem := fst (splitext (CoreVideo.name Scripted.clip)) in
  VideoEnc.dst_pth self = stem ++ "_dsv2_q" ++ py_str 23 ++ ".dsv"
  /\ VideoEnc.dec_y4m_path self = stem ++ "_dsv2_q" ++ py_str 23 ++ "_decoded.y4m"
  /\ (exists ff enc, VideoEnc.commands self = (ff, enc, VideoEnc.dec_y4m_path self)).
Proof.
  apply (dsv2_derived_paths Scripted.clip 23 [] None); reflexivity.
Defined.

End Siblings.

(** ** Removing the output on a disk *)

Section OnDisk.

Lemma present_without (w : list string) (p q : string) :
  Files.present (Files.without p w) q
  = Files.present w q && negb (String.eqb q p).
Proof.
  unfold Files.present, Files.without.
  induction w as [| f w IH]; [reflexivity |].
  cbn [List.filter existsb].
  destruct (String.eqb_spec f p) as [-> | Nfp]; cbn [negb existsb].
  - rewrite IH. destruct (String.eqb q p); [| now rewrite orb_false_l].
    cbn [negb orb]. now rewrite !andb_false_r.
  - rewrite IH. destruct (String.eqb_spec q f) as [-> | Nqf]; [| reflexivity].
    apply String.eqb_neq in Nfp. now rewrite Nfp.
Qed.

End OnDisk.

(** X14.  On a disk, [remove_output] fails only for want of the encoded
    file, and then removes nothing, not even a decoded file that is there.
    When it returns, the encoded file is gone and for dsv2 the decoded one
    with it, whether it was there or not; every other file is as it
    was. *)
Theorem remove_output_on_disk (self : VideoEnc.t) (w : list string) :
  match VideoEnc.remove_output (H := Files.host) self w with
  | (Ok _, w') =>
      Files.present w (VideoEnc.dst_pth self) = true
      /\ forall p,
           Files.present w' p
           = if String.eqb p (VideoEnc.dst_pth self)
                || String.eqb (VideoEnc.encoder self) "dsv2"
                   && String.eqb p (VideoEnc.dec_y4m_path self)
             then false else Files.present w p
  | (Raise e, w') =>
      Files.present w (VideoEnc.dst_pth self) = false
      /\ e = Files.missing /\ w' = w
  end.
Proof.
  unfold VideoEnc.remove_output, bind. cbn [os_remove os_path_exists Files.host].
  destruct (Files.present w (VideoEnc.dst_pth self)) eqn:Hdst; [| now repeat split].
  destruct (String.eqb (VideoEnc.encoder self) "dsv2").
  - rewrite present_without, dec_y4m_differs, andb_true_r.
    destruct (Files.present w (VideoEnc.dec_y4m_path self)) eqn:Hdec.
    + rewrite present_without, Hdec, dec_y4m_differs. cbn [negb andb].
      split; [reflexivity |]. intros p. rewrite !present_without.
      cbn [andb]. destruct (String.eqb p (VideoEnc.dst_pth self));
        destruct (String.eqb p (VideoEnc.dec_y4m_path self));
        cbn [orb negb]; rewrite ?andb_true_r, ?andb_false_r; reflexivity.
    + unfold ret. split; [reflexivity |]. intros p. rewrite present_without.
      cbn [andb].
      destruct (String.eqb_spec p (VideoEnc.dst_pth self)) as [-> | N].
      * cbn [orb negb]. now rewrite andb_false_r.
      * cbn [orb negb]. rewrite andb_true_r.
        destruct (String.eqb_spec p (VideoEnc.dec_y4m_path self)) as [-> | N'];
          [exact Hdec | reflexivity].
  - unfold ret. split; [reflexivity |]. intros p. rewrite present_without.
    cbn [andb]. rewrite orb_false_r.
    destruct (String.eqb p (VideoEnc.dst_pth self)); cbn [negb];
      rewrite ?andb_true_r, ?andb_false_r; reflexivity.
Qed.

(** ** The order of the calls *)

Section LoggedSteps.

Lemma popen_logged (report : string) (cmd : list string) (stdin : option nat)
      (log : list Logged.event) :
  cmd <> [] ->
  Popen (H := Logged.host report) cmd stdin log
  = (Ok 0%nat, (log ++ [Logged.Started cmd stdin])%list).
Proof. destruct cmd; [contradiction | reflexivity]. Qed.


Lemma dst_init_logged (report : string) (pth e_pth : string)
      (log : list Logged.event) :
  DstVideo.init (H := Logged.host report) pth e_pth log
  = (Ok {| DstVideo.path := pth; DstVideo.enc_path := e_pth;
           DstVideo.name := basename pth; DstVideo.size := 1000;
           DstVideo.video_width := 1920; DstVideo.video_height := 1080;
           DstVideo.xpsnr_y := 0; DstVideo.xpsnr_u := 0; DstVideo.xpsnr_v := 0;
           DstVideo.w_xpsnr := 0;
           DstVideo.psnr := PyFloat 0; DstVideo.ssim := PyFloat 0 |},
     (log ++ [Logged.Size e_pth; Logged.Probed (CoreVideo.ffprobe_cmd pth)])%list).
Proof.
  unfold DstVideo.init, DstVideo.get_input_filesize, CoreVideo.get_video_dimensions.
  unfold bind, lift. cbn [os_path_getsize subprocess_run Logged.host].
  change (CoreVideo.dimensions_of (Scripted.probe_ok "1920x1080"))
    with (Ok (1920, 1080) : res (Z * Z)).
  cbv iota beta. rewrite <- app_assoc. reflexivity.
Qed.

End LoggedSteps.

Ltac log_popen :=
  erewrite bind_ok;
  [| apply popen_logged;
     first [discriminate
           | match goal with
             | |- (if ?b then _ else _) <> [] =>
                 destruct b; [apply app_nonempty |]; discriminate
             end]].

Ltac log_host := erewrite bind_ok; [| reflexivity].

Ltac log_end :=
  cbn [VideoEnc.set_time VideoEnc.dst_pth];
  erewrite bind_ok; [| apply dst_init_logged];
  unfold ret; rewrite <- !app_assoc; reflexivity.

Section OnTheLoggedHost.
Variable report : string.

Let h : Host (list Logged.event) := Logged.host report.
Existing Instance h.











End OnTheLoggedHost.

(** X15.  What the encode time covers.  On the logged host the calls of
    [encode] are, in this order: for x264 and dsv2 the supply is started
    before the first reading of the clock, so its start is not timed, for
    snow the whole run lies between the two readings; for dsv2 the decoder
    is started and waited for before the second reading, so the time
    includes the decode; the size of the encoded file and the dimensions of
    the compared file are asked for after the second reading. *)
Theorem encode_timed_calls (report : string) (self : VideoEnc.t)
        (log : list Logged.event) :
  In (VideoEnc.encoder self) ["x264"; "dsv2"; "snow"] ->
  let ff := fst (fst (VideoEnc.commands self)) in
  let enc := snd (fst (VideoEnc.commands self)) in
  exists v,
    DstVideo.path v = Logged.compared self
    /\ VideoEnc.encode (H := Logged.host report) self log
       = (Ok (VideoEnc.set_time self (0 - 0), v),
          (log
           ++ (if String.eqb (VideoEnc.encoder self) "snow" then []
               else [Logged.Started ff None])
           ++ [Logged.Clock]
           ++ (if String.eqb (VideoEnc.encoder self) "snow"
               then [Logged.Started ff None; Logged.Waited 0]
               else [Logged.Started enc (Some 0%nat); Logged.Waited 0])
           ++ (if String.eqb (VideoEnc.encoder self) "dsv2"
               then [Logged.Started (VideoEnc.dec_cmd self) None; Logged.Waited 0]
               else [])
           ++ [Logged.Clock; Logged.Size (VideoEnc.dst_pth self);
               Logged.Probed (CoreVideo.ffprobe_cmd (Logged.compared self))])%list).
Proof.
  intros Hin. unfold VideoEnc.encode, Logged.compared, VideoEnc.commands.
  destruct Hin as [E | [E | [E | []]]]; rewrite <- E;
    cbn [String.eqb Ascii.eqb Bool.eqb negb fst snd];
    eexists; split.
  - shelve.
  - erewrite bind_ok.
    2:{ log_popen. log_host. log_popen. log_host. log_host. reflexivity. }
    log_end.
  - shelve.
  - erewrite bind_ok.
    2:{ log_popen. log_host. log_popen. log_host. log_popen. log_host. log_host.
        reflexivity. }
    log_end.
  - shelve.
  - erewrite bind_ok.
    2:{ log_host. log_popen. log_host. log_host. reflexivity. }
    log_end.
  Unshelve. all: reflexivity.
Qed.

Lemma encode_timed_calls_witness :
  let self := VideoEnc.init Scripted.clip 23 "dsv2" [] None in
  let ff := fst (fst (VideoEnc.commands self)) in
  let enc := snd (fst (VideoEnc.commands self)) in
  exists v,
    DstVideo.path v = Logged.compared self
    /\ VideoEnc.encode (H := Logged.host "") self []
       = (Ok (VideoEnc.set_time self (0 - 0), v),
          ([]
           ++ (if String.eqb (VideoEnc.encoder self) "snow" then []
               else [Logged.Started ff None])
           ++ [Logged.Clock]
           ++ (if String.eqb (VideoEnc.encoder self) "snow"
               then [Logged.Started ff None; Logged.Waited 0]
               else [Logged.Started enc (Some 0%nat); Logged.Waited 0])
           ++ (if String.eqb (VideoEnc.encoder self) "dsv2"
               then [Logged.Started (VideoEnc.dec_cmd self) None; Logged.Waited 0]
               else [])
           ++ [Logged.Clock; Logged.Size (VideoEnc.dst_pth self);
               Logged.Probed (CoreVideo.ffprobe_cmd (Logged.compared self))])%list).
Proof.
  apply (encode_timed_calls "" (VideoEnc.init Scripted.clip 23 "dsv2" [] None) []).
  simpl. tauto.
Defined.




